(** * diffrax: Butcher tableaus and dense output of the Tsit5 and Dopri5 solvers

    A shallow embedding of
      - [diffrax/_solver/tsit5.py]  (the newer API: [a_lower], [b_sol], [b_error], [c]),
      - [diffrax/solver/tsit5.py]   (the older API: [alpha], [beta], [c_sol], [c_error]),
      - [diffrax/solver/dopri5.py]  (the older API).

    Scalars are IEEE 754 binary64 numbers, the element type of the NumPy arrays
    that hold the tableaus and the type of a Python [float]; they are Rocq's
    primitive [float]s, so a decimal literal of the source is read exactly as
    Python reads it (rounded to the nearest binary64 number) and [+], [-], [*]
    and [/] round as they do there (and as JAX does in its 64-bit mode).  A
    state [Y] is a flat vector of scalars, and the stage derivatives [k] are a
    list of such vectors, one per stage. *)

From Stdlib Require Import Floats ZArith QArith Qabs List Bool Lia.
Import ListNotations.

#[local] Set Warnings "-inexact-float,-register-all".
#[local] Open Scope float_scope.

(** ** Scalars and state vectors *)

(** Python's [sum(xs)]: a left-to-right accumulation that starts from zero. *)
Definition sum (xs : list float) : float := fold_left PrimFloat.add xs 0.

(** NumPy's [allclose(a, b)] on two scalars with its default tolerances,
    [abs(a - b) <= atol + rtol * abs(b)] with [rtol = 1e-05] and [atol = 1e-08]. *)
Definition allclose (a b : float) : bool :=
  abs (a - b) <=? 1e-08 + 1e-05 * abs b.

(** [t ** 2] on a JAX value: a power with a literal integer exponent is a
    repeated multiplication. *)
Definition sqr (t : float) : float := t * t.

(** The rational number that a binary64 number stands for (0 for an infinity
    or a NaN, which no tableau holds). *)
Definition exact (x : float) : Q :=
  match Prim2SF x with
  | S754_finite s m e => ((if s then -1 else 1) * inject_Z (Zpos m) * 2 ^ e)%Q
  | _ => 0%Q
  end.

(** The sum of the entries of [xs] in exact rational arithmetic. *)
Definition exact_sum (xs : list float) : Q := fold_right Qplus 0%Q (map exact xs).

(** A state: the leaves of the solver's [y], flattened. *)
Definition Y : Type := list float.

Fixpoint zip_with {A B C : Type} (f : A -> B -> C) (xs : list A) (ys : list B) : list C :=
  match xs, ys with
  | x :: xs', y :: ys' => f x y :: zip_with f xs' ys'
  | _, _ => []
  end.

Definition vadd (u v : Y) : Y := zip_with PrimFloat.add u v.
Definition vsub (u v : Y) : Y := zip_with PrimFloat.sub u v.

(** [veq u v] is the source's [u == v] holding at every component (and the two
    having one shape); it is numeric equality, under which [-0.0 == 0.0] and a
    NaN differs from everything. *)
Fixpoint veq (u v : Y) : bool :=
  match u, v with
  | [], [] => true
  | x :: u', y :: v' => (x =? y) && veq u' v'
  | _, _ => false
  end.

(** [vector_tree_dot(stack([b1, ..., b7]), k)] of the newer API, which the
    older API writes [stack([b1, ..., b7]) @ k]: the contraction of the weights with the leading (stage) axis of [k], which
    gives [sum_i b_i * k_i] in the shape of one stage derivative, [n] scalars.
    The stages are accumulated in order into a zero vector. *)
Definition vector_tree_dot (n : nat) (b : list float) (k : list Y) : Y :=
  fold_left (fun acc bk => zip_with (fun a x => a + fst bk * x) acc (snd bk))
            (combine b k) (repeat 0 n).

(** ** The newer API: diffrax/_solver/tsit5.py *)

Module New.

Record ButcherTableau : Type := mkButcherTableau {
  a_lower : list (list float);
  b_sol : list float;
  b_error : list float;
  c : list float
}.

Definition _tsit5_tableau : ButcherTableau := {|
  a_lower := [
    [161 / 1000];
    [-0.8480655492356988544426874250230774675121177393430391537369234245294192976164141156943e-2;
     0.3354806554923569885444268742502307746751211773934303915373692342452941929761641411569];
    [2.897153057105493432130432594192938764924887287701866490314866693455023795137503079289;
     -6.359448489975074843148159912383825625952700647415626703305928850207288721235210244366;
     4.362295432869581411017727318190886861027813359713760212991062156752264926097707165077];
    [5.325864828439256604428877920840511317836476253097040101202360397727981648835607691791;
     -11.74888356406282787774717033978577296188744178259862899288666928009020615663593781589;
     7.495539342889836208304604784564358155658679161518186721010132816213648793440552049753;
     -0.9249506636175524925650207933207191611349983406029535244034750452930469056411389539635e-1];
    [5.861455442946420028659251486982647890394337666164814434818157239052507339770711679748;
     -12.92096931784710929170611868178335939541780751955743459166312250439928519268343184452;
     8.159367898576158643180400794539253485181918321135053305748355423955009222648673734986;
     -0.7158497328140099722453054252582973869127213147363544882721139659546372402303777878835e-1;
     -0.2826905039406838290900305721271224146717633626879770007617876201276764571291579142206e-1];
    [0.9646076681806522951816731316512876333711995238157997181903319145764851595234062815396e-1;
     1 / 100;
     0.4798896504144995747752495322905965199130404621990332488332634944254542060153074523509;
     1.379008574103741893192274821856872770756462643091360525934940067397245698027561293331;
     -3.290069515436080679901047585711363850115683290894936158531296799594813811049925401677;
     2.324710524099773982415355918398765796109060233222962411944060046314465391054716027841]
  ];
  b_sol := [
    0.9646076681806522951816731316512876333711995238157997181903319145764851595234062815396e-1;
    1 / 100;
    0.4798896504144995747752495322905965199130404621990332488332634944254542060153074523509;
    1.379008574103741893192274821856872770756462643091360525934940067397245698027561293331;
    -3.290069515436080679901047585711363850115683290894936158531296799594813811049925401677;
    2.324710524099773982415355918398765796109060233222962411944060046314465391054716027841;
    0.0
  ];
  b_error := [
    0.9646076681806522951816731316512876333711995238157997181903319145764851595234062815396e-1
    - 0.9468075576583945807478876255758922856117527357724631226139574065785592789071067303271e-1;
    1 / 100
    - 0.9183565540343253096776363936645313759813746240984095238905939532922955247253608687270e-2;
    0.4798896504144995747752495322905965199130404621990332488332634944254542060153074523509
    - 0.4877705284247615707855642599631228241516691959761363774365216240304071651579571959813;
    1.379008574103741893192274821856872770756462643091360525934940067397245698027561293331
    - 1.234297566930478985655109673884237654035539930748192848315425833500484878378061439761;
    -3.290069515436080679901047585711363850115683290894936158531296799594813811049925401677
    + 2.707712349983525454881109975059321670689605166938197378763992255714444407154902012702;
    2.324710524099773982415355918398765796109060233222962411944060046314465391054716027841
    - 1.866628418170587035753719399566211498666255505244122593996591602841258328965767580089;
    (-1) / 66
  ];
  c := [
    161 / 1000;
    327 / 1000;
    9 / 10;
    0.9800255409045096857298102862870245954942137979563024768854764293221195950761080302604;
    1.0;
    1.0
  ]
|}.

(** The seven weight polynomials [b1], ..., [b7] of [_Tsit5Interpolation.evaluate]
    at the rescaled time [t], stacked. *)
Definition weights (t : float) : list float :=
  let b1 :=
    -1.0530884977290216
    * t
    * (t - 1.3299890189751412)
    * (sqr t - 1.4364028541716351 * t + 0.7139816917074209) in
  let b2 := 0.1017 * sqr t * (sqr t - 2.1966568338249754 * t + 1.2949852507374631) in
  let b3 :=
    2.490627285651252793
    * sqr t
    * (sqr t - 2.38535645472061657 * t + 1.57803468208092486) in
  let b4 :=
    -16.54810288924490272
    * (t - 1.21712927295533244)
    * (t - 0.61620406037800089)
    * sqr t in
  let b5 :=
    47.37952196281928122
    * (t - 1.203071208372362603)
    * (t - 0.658047292653547382)
    * sqr t in
  let b6 := -34.87065786149660974 * (t - 1.2) * (t - 0.666666666666666667) * sqr t in
  let b7 := 2.5 * (t - 1) * (t - 0.6) * sqr t in
  [b1; b2; b3; b4; b5; b6; b7].

Record _Tsit5Interpolation : Type := mk_Tsit5Interpolation {
  t0 : float;
  t1 : float;
  y0 : Y;
  k : list Y
}.

(** [_Tsit5Interpolation.__init__], with the keyword arguments [t0], [t1], [y0],
    [y1] and [k]; its first statement is [del y1]. *)
Definition __init__ (t0 t1 : float) (y0 y1 : Y) (k : list Y) : _Tsit5Interpolation :=
  mk_Tsit5Interpolation t0 t1 y0 k.

Section Evaluate.

(** [linear_rescale] is imported from [diffrax/_misc.py], which is not among
    the sources; it is a parameter of the evaluation. *)
Variable linear_rescale : float -> float -> float -> float.

(** The body of [evaluate] below its first two lines: [evaluate(t0)]. *)
Definition evaluate_point (self : _Tsit5Interpolation) (t0' : float) : Y :=
  let t := linear_rescale (t0 self) t0' (t1 self) in
  vadd (y0 self) (vector_tree_dot (length (y0 self)) (weights t) (k self)).

(** [evaluate(t0, t1=None, left=True)]; [left] is deleted on entry. *)
Definition evaluate (self : _Tsit5Interpolation) (t0' : float) (t1' : option float) : Y :=
  match t1' with
  | Some t1' => vsub (evaluate_point self t1') (evaluate_point self t0')
  | None => evaluate_point self t0'
  end.

End Evaluate.

(** Modelled from the spec: [linear_rescale(t0, t, t1)] of [diffrax/_misc.py],
    the rescaled local variable [tau = (t - t0) / (t1 - t0)]. *)
Definition linear_rescale (t0 t t1 : float) : float := (t - t0) / (t1 - t0).

(** [class Tsit5(AbstractERK)]: [order(self, terms)] returns 5 whatever the
    terms are. *)
Module Tsit5.
Definition order {Terms : Type} (terms : Terms) : nat := 5.
End Tsit5.

End New.

(** ** The older API: diffrax/solver/tsit5.py and diffrax/solver/dopri5.py *)

Module Old.

Record ButcherTableau : Type := mkButcherTableau {
  alpha : list float;
  beta : list (list float);
  c_sol : list float;
  c_error : list float
}.

Definition _tsit5_tableau : ButcherTableau := {|
  alpha := [
    161 / 1000;
    327 / 1000;
    9 / 10;
    0.9800255409045096857298102862870245954942137979563024768854764293221195950761080302604;
    1.0;
    1.0
  ];
  beta := [
    [161 / 1000];
    [-0.8480655492356988544426874250230774675121177393430391537369234245294192976164141156943e-2;
     0.3354806554923569885444268742502307746751211773934303915373692342452941929761641411569];
    [2.897153057105493432130432594192938764924887287701866490314866693455023795137503079289;
     -6.359448489975074843148159912383825625952700647415626703305928850207288721235210244366;
     4.362295432869581411017727318190886861027813359713760212991062156752264926097707165077];
    [5.325864828439256604428877920840511317836476253097040101202360397727981648835607691791;
     -11.74888356406282787774717033978577296188744178259862899288666928009020615663593781589;
     7.495539342889836208304604784564358155658679161518186721010132816213648793440552049753;
     -0.9249506636175524925650207933207191611349983406029535244034750452930469056411389539635e-1];
    [5.861455442946420028659251486982647890394337666164814434818157239052507339770711679748;
     -12.92096931784710929170611868178335939541780751955743459166312250439928519268343184452;
     8.159367898576158643180400794539253485181918321135053305748355423955009222648673734986;
     -0.7158497328140099722453054252582973869127213147363544882721139659546372402303777878835e-1;
     -0.2826905039406838290900305721271224146717633626879770007617876201276764571291579142206e-1];
    [0.9646076681806522951816731316512876333711995238157997181903319145764851595234062815396e-1;
     1 / 100;
     0.4798896504144995747752495322905965199130404621990332488332634944254542060153074523509;
     1.379008574103741893192274821856872770756462643091360525934940067397245698027561293331;
     -3.290069515436080679901047585711363850115683290894936158531296799594813811049925401677;
     2.324710524099773982415355918398765796109060233222962411944060046314465391054716027841]
  ];
  c_sol := [
    0.9646076681806522951816731316512876333711995238157997181903319145764851595234062815396e-1;
    1 / 100;
    0.4798896504144995747752495322905965199130404621990332488332634944254542060153074523509;
    1.379008574103741893192274821856872770756462643091360525934940067397245698027561293331;
    -3.290069515436080679901047585711363850115683290894936158531296799594813811049925401677;
    2.324710524099773982415355918398765796109060233222962411944060046314465391054716027841;
    0.0
  ];
  c_error := [
    0.9646076681806522951816731316512876333711995238157997181903319145764851595234062815396e-1
    - 0.9468075576583945807478876255758922856117527357724631226139574065785592789071067303271e-1;
    1 / 100
    - 0.9183565540343253096776363936645313759813746240984095238905939532922955247253608687270e-2;
    0.4798896504144995747752495322905965199130404621990332488332634944254542060153074523509
    - 0.4877705284247615707855642599631228241516691959761363774365216240304071651579571959813;
    1.379008574103741893192274821856872770756462643091360525934940067397245698027561293331
    - 1.234297566930478985655109673884237654035539930748192848315425833500484878378061439761;
    -3.290069515436080679901047585711363850115683290894936158531296799594813811049925401677
    + 2.707712349983525454881109975059321670689605166938197378763992255714444407154902012702;
    2.324710524099773982415355918398765796109060233222962411944060046314465391054716027841
    - 1.866628418170587035753719399566211498666255505244122593996591602841258328965767580089;
    (-1) / 66
  ]
|}.

Definition _dopri5_tableau : ButcherTableau := {|
  alpha := [1 / 5; 3 / 10; 4 / 5; 8 / 9; 1.0; 1.0];
  beta := [
    [1 / 5];
    [3 / 40; 9 / 40];
    [44 / 45; (-56) / 15; 32 / 9];
    [19372 / 6561; (-25360) / 2187; 64448 / 6561; (-212) / 729];
    [9017 / 3168; (-355) / 33; 46732 / 5247; 49 / 176; (-5103) / 18656];
    [35 / 384; 0; 500 / 1113; 125 / 192; (-2187) / 6784; 11 / 84]
  ];
  c_sol := [35 / 384; 0; 500 / 1113; 125 / 192; (-2187) / 6784; 11 / 84; 0];
  c_error := [
    35 / 384 - 1951 / 21600;
    0;
    500 / 1113 - 22642 / 50085;
    125 / 192 - 451 / 720;
    (-2187) / 6784 - (-12231) / 42400;
    11 / 84 - 649 / 6300;
    (-1.0) / 60.0
  ]
|}.

(** The seven weight polynomials [b1], ..., [b7] of [_Tsit5Interpolation.evaluate]
    at the rescaled time [t], stacked. *)
Definition weights (t : float) : list float :=
  let b1 :=
    -1.0530884977290216
    * t
    * (t - 1.3299890189751412)
    * (sqr t - 1.4364028541716351 * t + 0.7139816917074209) in
  let b2 := 0.1017 * sqr t * (sqr t - 2.1966568338249754 * t + 1.2949852507374631) in
  let b3 :=
    2.490627285651252793
    * sqr t
    * (sqr t - 2.38535645472061657 * t + 1.57803468208092486) in
  let b4 :=
    -16.54810288924490272
    * (t - 1.21712927295533244)
    * (t - 0.61620406037800089)
    * sqr t in
  let b5 :=
    47.37952196281928122
    * (t - 1.203071208372362603)
    * (t - 0.658047292653547382)
    * sqr t in
  let b6 := -34.87065786149660974 * (t - 1.2) * (t - 0.666666666666666667) * sqr t in
  let b7 := 2.5 * (t - 1) * (t - 0.6) * sqr t in
  [b1; b2; b3; b4; b5; b6; b7].

(** [t0] and [t1] are the fields of the base class [AbstractLocalInterpolation]. *)
Record _Tsit5Interpolation : Type := mk_Tsit5Interpolation {
  t0 : float;
  t1 : float;
  y0 : Y;
  y1 : Y;
  k : list Y
}.

(** [_div = jnp.where(t0 == self.t0, 1, self.t1 - self.t0)]. *)
Definition _div (self : _Tsit5Interpolation) (t0' : float) : float :=
  if t0' =? t0 self then 1 else t1 self - t0 self.

(** The body of [evaluate] below its first two lines: [evaluate(t0)]. *)
Definition evaluate_point (self : _Tsit5Interpolation) (t0' : float) : Y :=
  let t := (t0' - t0 self) / _div self t0' in
  vadd (y0 self) (vector_tree_dot (length (y0 self)) (weights t) (k self)).

(** [evaluate(t0, t1=None)]. *)
Definition evaluate (self : _Tsit5Interpolation) (t0' : float) (t1' : option float) : Y :=
  match t1' with
  | Some t1' => vsub (evaluate_point self t1') (evaluate_point self t0')
  | None => evaluate_point self t0'
  end.

(** [class Tsit5(AbstractERK)]: [order = 5]. *)
Module Tsit5.
Definition order : nat := 5.
End Tsit5.

(** [class _Dopri5Interpolation(FourthOrderPolynomialInterpolation)]: the
    weights [c_mid] of the stage derivatives in the value at the middle of a
    step. *)
Module _Dopri5Interpolation.
Definition c_mid : list float := [
  6025192743 / 30085553152 / 2;
  0;
  51252292925 / 65400821598 / 2;
  (-2691868925) / 45128329728 / 2;
  187940372067 / 1594534317056 / 2;
  (-1776094331) / 19743644256 / 2;
  11237099 / 235043384 / 2
].
End _Dopri5Interpolation.

(** [class Dopri5(AbstractERK)]: [order = 5]. *)
Module Dopri5.
Definition order : nat := 5.
End Dopri5.

End Old.


(** ** Well-formed inputs *)

(** Every component is a finite number (neither an infinity nor a NaN). *)
Definition all_finite (v : Y) : bool := forallb is_finite v.

(** No component is a NaN. *)
Definition no_nan (v : Y) : bool := forallb (fun x => negb (is_nan x)) v.

(** Every component is a zero, of either sign. *)
Definition all_zero (v : Y) : bool := forallb is_zero v.

(** The stage derivatives [k] have the shape of a state of [n] scalars at every
    stage, and hold finite numbers only. *)
Definition finite_stages (n : nat) (k : list Y) : bool :=
  forallb (fun row => Nat.eqb (length row) n && all_finite row) k.

(** The stage derivatives [k] have the shape of a state of [n] scalars at every
    stage. *)
Definition stage_shape (n : nat) (k : list Y) : bool :=
  forallb (fun row => Nat.eqb (length row) n) k.

(** The stage derivatives [k] have the shape of a state of [n] scalars and are
    all zeros: the step of a solution at rest. *)
Definition zero_stages (n : nat) (k : list Y) : bool :=
  forallb (fun row => Nat.eqb (length row) n && all_zero row) k.

(** Every component is a NaN. *)
Definition all_nan (v : Y) : bool := forallb is_nan v.

(** No component is a finite number: each is an infinity or a NaN. *)
Definition none_finite (v : Y) : bool := forallb (fun x => negb (is_finite x)) v.

(** [-v]. *)
Definition vopp (v : Y) : Y := map PrimFloat.opp v.

(** ** Shapes of a tableau *)





(** ** The embedded lower-order weights *)

(** The subtrahends of the entries of [b_error] (alias [c_error]) of Tsit5: the
    solution weights of the embedded 4th order method. *)
Definition _tsit5_lower_order : list float := [
  0.9468075576583945807478876255758922856117527357724631226139574065785592789071067303271e-1;
  0.9183565540343253096776363936645313759813746240984095238905939532922955247253608687270e-2;
  0.4877705284247615707855642599631228241516691959761363774365216240304071651579571959813;
  1.234297566930478985655109673884237654035539930748192848315425833500484878378061439761;
  -2.707712349983525454881109975059321670689605166938197378763992255714444407154902012702;
  1.866628418170587035753719399566211498666255505244122593996591602841258328965767580089;
  1 / 66
].

(** The subtrahends of the entries of [c_error] of Dopri5. *)
Definition _dopri5_lower_order : list float := [
  1951 / 21600;
  0;
  22642 / 50085;
  451 / 720;
  (-12231) / 42400;
  649 / 6300;
  1.0 / 60.0
].

(** ** Order conditions of a Runge-Kutta method *)

Section OrderConditions.

#[local] Open Scope Q_scope.

(** A rooted tree: a root and its subtrees.  A method has order [p] when its
    weights satisfy one condition per tree of at most [p] nodes. *)
Inductive rtree : Type := Node : list rtree -> rtree.

(** The number of nodes. *)
Fixpoint tree_order (t : rtree) : nat :=
  match t with
  | Node l => S (fold_right (fun c n => (tree_order c + n)%nat) 0%nat l)
  end.

(** The density of a tree: its order times the densities of its subtrees. *)
Fixpoint density (t : rtree) : positive :=
  match t with
  | Node l =>
      (Pos.of_succ_nat (fold_right (fun c n => (tree_order c + n)%nat) 0%nat l)
       * fold_right (fun c p => density c * p) 1 l)%positive
  end.

Fixpoint qpow (x : Q) (n : nat) : Q :=
  match n with O => 1 | S n' => x * qpow x n' end.

Definition dotQ (u v : list Q) : Q := fold_right Qplus 0 (zip_with Qmult u v).

(** The square coupling matrix of a tableau in exact arithmetic: the rows that
    the source stores, below the empty row of the first stage. *)
Definition stage_matrix (a_lower : list (list float)) : list (list Q) :=
  [] :: map (map exact) a_lower.

(** The elementary weights of a tree, one per stage: the product over the
    subtrees of the matrix applied to the subtree's elementary weights. *)
Fixpoint elementary (a : list (list Q)) (t : rtree) : list Q :=
  match t with
  | Node l =>
      fold_right (fun c acc => zip_with Qmult (map (fun row => dotQ row (elementary a c)) a) acc)
                 (repeat 1 (length a)) l
  end.

(** By how much the weights [b] miss the order condition of the tree [t] for
    the solution at the fraction [theta] of the step:
    [sum_i b_i Phi_i(t) - theta ^ |t| / gamma(t)]. *)
Definition order_residual (a : list (list Q)) (b : list Q) (theta : Q) (t : rtree) : Q :=
  dotQ b (elementary a t) - qpow theta (tree_order t) / inject_Z (Zpos (density t)).

(** The tree of [n + 1] nodes whose root carries [n] leaves, and the tree of
    [n + 1] nodes in a row. *)
Definition bushy (n : nat) : rtree := Node (repeat (Node []) n).

Fixpoint tall (n : nat) : rtree :=
  match n with O => Node [] | S n' => Node [tall n'] end.

(** *** Polynomials in the rescaled time *)

(** The expressions that [evaluate] builds from the rescaled time [t] and
    literals with [+], [-] and [*]. *)
Inductive expr : Type :=
| Lit (c : float)
| Var
| Add (e1 e2 : expr)
| Sub (e1 e2 : expr)
| Mul (e1 e2 : expr).

(** An expression as the source computes it, in binary64 arithmetic. *)
Fixpoint denoteF (t : float) (e : expr) : float :=
  match e with
  | Lit c => c
  | Var => t
  | Add e1 e2 => denoteF t e1 + denoteF t e2
  | Sub e1 e2 => denoteF t e1 - denoteF t e2
  | Mul e1 e2 => denoteF t e1 * denoteF t e2
  end%float.

(** The same expression without rounding: the binary64 literals as they are
    stored, and exact [+], [-] and [*]. *)
Fixpoint denoteQ (t : Q) (e : expr) : Q :=
  match e with
  | Lit c => exact c
  | Var => t
  | Add e1 e2 => denoteQ t e1 + denoteQ t e2
  | Sub e1 e2 => denoteQ t e1 - denoteQ t e2
  | Mul e1 e2 => denoteQ t e1 * denoteQ t e2
  end.

(** A polynomial: its coefficients, the constant one first. *)
Definition poly : Type := list Q.

Fixpoint peval (p : poly) (x : Q) : Q :=
  match p with [] => 0 | c :: p' => c + x * peval p' x end.

Fixpoint padd (p q : poly) : poly :=
  match p, q with
  | [], _ => q
  | _, [] => p
  | a :: p', b :: q' => (a + b) :: padd p' q'
  end.

Definition pscale (c : Q) (p : poly) : poly := map (Qmult c) p.

Fixpoint pmul (p q : poly) : poly :=
  match p with
  | [] => []
  | a :: p' => padd (pscale a q) (0 :: pmul p' q)
  end.

Definition psub (p q : poly) : poly := padd p (pscale (-1) q).

(** The derivative of a polynomial whose constant coefficient has index [k]. *)
Fixpoint pderiv_from (k : nat) (p : poly) : poly :=
  match p with
  | [] => []
  | c :: p' => (inject_Z (Z.of_nat k) * c) :: pderiv_from (S k) p'
  end.

Definition pderiv (p : poly) : poly := tl (pderiv_from 0 p).

(** The expression as a polynomial in the rescaled time. *)
Fixpoint denoteP (e : expr) : poly :=
  match e with
  | Lit c => [exact c]
  | Var => [0; 1]
  | Add e1 e2 => padd (denoteP e1) (denoteP e2)
  | Sub e1 e2 => psub (denoteP e1) (denoteP e2)
  | Mul e1 e2 => pmul (denoteP e1) (denoteP e2)
  end.

(** The sum of the absolute values of the coefficients. *)
Definition norm1 (p : poly) : Q := fold_right (fun c s => Qabs c + s) 0 p.

Definition pdot (ps : list poly) (v : list Q) : poly :=
  fold_right padd [] (zip_with (fun p c => pscale c p) ps v).

End OrderConditions.

Arguments Lit c%_float.

(** The seven weight polynomials [b1], ..., [b7] of [_Tsit5Interpolation.evaluate]
    as expressions in the rescaled time. *)
Definition weights_expr : list expr :=
  let t := Var in
  let sqr := Mul t t in
  let b1 :=
    Mul (Mul (Mul (Lit (-1.0530884977290216)) t) (Sub t (Lit 1.3299890189751412)))
        (Add (Sub sqr (Mul (Lit 1.4364028541716351) t)) (Lit 0.7139816917074209)) in
  let b2 :=
    Mul (Mul (Lit 0.1017) sqr)
        (Add (Sub sqr (Mul (Lit 2.1966568338249754) t)) (Lit 1.2949852507374631)) in
  let b3 :=
    Mul (Mul (Lit 2.490627285651252793) sqr)
        (Add (Sub sqr (Mul (Lit 2.38535645472061657) t)) (Lit 1.57803468208092486)) in
  let b4 :=
    Mul (Mul (Mul (Lit (-16.54810288924490272)) (Sub t (Lit 1.21712927295533244)))
             (Sub t (Lit 0.61620406037800089))) sqr in
  let b5 :=
    Mul (Mul (Mul (Lit 47.37952196281928122) (Sub t (Lit 1.203071208372362603)))
             (Sub t (Lit 0.658047292653547382))) sqr in
  let b6 :=
    Mul (Mul (Mul (Lit (-34.87065786149660974)) (Sub t (Lit 1.2)))
             (Sub t (Lit 0.666666666666666667))) sqr in
  let b7 := Mul (Mul (Mul (Lit 2.5) (Sub t (Lit 1))) (Sub t (Lit 0.6))) sqr in
  [b1; b2; b3; b4; b5; b6; b7].

(** The seven weights at the fraction [theta] of the step, without rounding. *)
Definition dense_weights (theta : Q) : list Q := map (denoteQ theta) weights_expr.

(** The polynomial in [theta] by which the weight polynomials miss the order
    condition of a tree with elementary weights [phi], [n] nodes and density
    [g]. *)
Definition residual_poly (phi : list Q) (n : nat) (g : positive) : poly :=
  psub (pdot (map denoteP weights_expr) phi) (repeat 0%Q n ++ [(1 / inject_Z (Zpos g))%Q]).

(** ** The step of the spec *)





Section ExactStep.

#[local] Open Scope Q_scope.

(** Modelled from the spec: the value [sum_i weights[i] * stages[i]] of
    [combine_stages(weights, stages)] for one component of the state, before
    any rounding.  The spec makes it a single fused reduction and leaves the
    order of the additions to the implementation, so this value, and not the
    bits of a particular order, is what the spec fixes. *)
Definition combine_stages_exact (weights : list float) (stages : list Q) : Q :=
  dotQ (map exact weights) stages.




(** Modelled from the spec: the error estimate
    [y_error = dt * combine_stages(b_error, stage_derivatives)], without
    rounding. *)
Definition y_error_exact (b_error : list float) (dt : Q) (stage_derivatives : list Q) : Q :=
  dt * combine_stages_exact b_error stage_derivatives.

End ExactStep.

(** ** Binary64 facts *)

(** A closed statement about the tableaus is settled by evaluating it. *)
Ltac by_evaluation := repeat split; vm_compute; reflexivity.

(** The cases of the IEEE 754 datum behind a primitive float. *)
Ltac sf_cases x :=
  let s := fresh "s" in let m := fresh "m" in let e := fresh "e" in
  destruct (Prim2SF x) as [s | s | | s m e]; try discriminate.

Section Binary64.

Definition sf_zero (p : spec_float) : bool :=
  match p with S754_zero _ => true | _ => false end.

Definition sf_nan (p : spec_float) : bool :=
  match p with S754_nan => true | _ => false end.

Definition sf_finite (p : spec_float) : bool :=
  match p with S754_zero _ | S754_finite _ _ _ => true | _ => false end.


Lemma Prim2SF_infinity : Prim2SF infinity = S754_infinity false.
Proof. reflexivity. Qed.

Lemma SFeqb_refl (p : spec_float) : SFeqb p p = negb (sf_nan p).
Proof.
  destruct p as [s | s | | s m e]; try (destruct s; reflexivity); try reflexivity.
  unfold SFeqb, SFcompare.
  destruct s; rewrite Z.compare_refl, Pos.compare_cont_refl; reflexivity.
Qed.

Lemma is_zero_spec (x : float) : is_zero x = sf_zero (Prim2SF x).
Proof.
  unfold is_zero. rewrite FloatAxioms.eqb_spec.
  change (Prim2SF zero) with (S754_zero false).
  destruct (Prim2SF x) as [s | s | | s m e]; try (destruct s; reflexivity); reflexivity.
Qed.

Lemma is_nan_spec (x : float) : is_nan x = sf_nan (Prim2SF x).
Proof.
  unfold is_nan. rewrite FloatAxioms.eqb_spec, SFeqb_refl. apply negb_involutive.
Qed.

Lemma is_finite_spec (x : float) : is_finite x = sf_finite (Prim2SF x).
Proof.
  unfold is_finite, is_infinity.
  rewrite is_nan_spec, FloatAxioms.eqb_spec, abs_spec.
  change (Prim2SF infinity) with (S754_infinity false).
  destruct (Prim2SF x) as [s | s | | s m e]; try (destruct s; reflexivity); reflexivity.
Qed.

(** A zero is one of the two binary64 zeros. *)
Lemma is_zero_cases (x : float) : is_zero x = true -> x = 0 \/ x = -0.
Proof.
  rewrite is_zero_spec. intros H.
  rewrite <- (SF2Prim_Prim2SF x).
  destruct (Prim2SF x) as [s | s | | s m e]; try discriminate.
  destruct s; [right | left]; reflexivity.
Qed.

(** [x - x] is [+0.0] for every finite [x]. *)
Lemma sub_diag (x : float) : is_finite x = true -> x - x = 0.
Proof.
  rewrite is_finite_spec. intros H.
  apply Prim2SF_inj. rewrite sub_spec.
  destruct (Prim2SF x) as [s | s | | s m e]; try discriminate.
  - destruct s; reflexivity.
  - unfold SF64sub, SFsub, shl_align.
    rewrite Z.sub_diag. reflexivity.
Qed.

(** A zero times a finite number is a zero. *)
Lemma mul_zero_finite (z x : float) :
  is_zero z = true -> is_finite x = true -> is_zero (z * x) = true.
Proof.
  rewrite !is_zero_spec, is_finite_spec, mul_spec.
  sf_cases z; sf_cases x; reflexivity.
Qed.

(** A zero plus a zero is a zero. *)
Lemma add_zero_zero (a b : float) :
  is_zero a = true -> is_zero b = true -> is_zero (a + b) = true.
Proof.
  rewrite !is_zero_spec, add_spec.
  sf_cases a; sf_cases b.
  repeat match goal with s : bool |- _ => destruct s end; reflexivity.
Qed.

(** Adding a zero to [y] gives a number equal to [y], unless [y] is a NaN. *)
Lemma add_zero_eqb (y z : float) :
  is_nan y = false -> is_zero z = true -> (y + z =? y) = true.
Proof.
  rewrite is_nan_spec, is_zero_spec, FloatAxioms.eqb_spec, add_spec.
  destruct (Prim2SF z) as [sz | sz | | sz mz ez]; try discriminate.
  intros Hy _.
  destruct (Prim2SF y) as [sy | sy | | sy my ey] eqn:E; try discriminate.
  - destruct sy, sz; reflexivity.
  - destruct sy; reflexivity.
  - change (SF64add (S754_finite sy my ey) (S754_zero sz)) with (S754_finite sy my ey).
    apply SFeqb_refl.
Qed.

End Binary64.

(** ** Vectors of zeros *)

Section ZeroWeights.

Lemma zip_with_length {A B C : Type} (f : A -> B -> C) (xs : list A) (ys : list B) :
  length xs = length ys -> length (zip_with f xs ys) = length xs.
Proof.
  revert ys. induction xs as [| x xs IH]; intros [| y ys] E; simpl in *; try discriminate.
  - reflexivity.
  - now rewrite IH by now injection E.
Qed.

(** One accumulation step of [vector_tree_dot] with a zero weight keeps a zero
    accumulator zero. *)
Lemma axpy_zero (b : float) (acc row : Y) :
  is_zero b = true -> all_zero acc = true -> all_finite row = true ->
  length row = length acc ->
  all_zero (zip_with (fun a x => a + b * x) acc row) = true.
Proof.
  intros Hb. revert row.
  induction acc as [| a acc IH]; intros [| x row] Ha Hr E; simpl in *; try discriminate.
  - reflexivity.
  - apply andb_true_iff in Ha as [Ha Hacc]. apply andb_true_iff in Hr as [Hx Hrow].
    apply andb_true_iff. split.
    + apply add_zero_zero; [assumption | now apply mul_zero_finite].
    + apply IH; try assumption. now injection E.
Qed.

Lemma fold_axpy_zero (n : nat) (b : list float) :
  all_zero b = true ->
  forall (k : list Y) (acc : Y),
    finite_stages n k = true -> all_zero acc = true -> length acc = n ->
    let r := fold_left (fun acc bk => zip_with (fun a x => a + fst bk * x) acc (snd bk))
                       (combine b k) acc in
    all_zero r = true /\ length r = n.
Proof.
  induction b as [| b0 b IH]; intros Hb k acc Hk Hacc Hlen; simpl in *.
  - now split.
  - apply andb_true_iff in Hb as [Hb0 Hb].
    destruct k as [| row k]; simpl in *.
    + now split.
    + apply andb_true_iff in Hk as [Hrow Hk].
      apply andb_true_iff in Hrow as [Hshape Hfin].
      apply Nat.eqb_eq in Hshape.
      apply IH; try assumption.
      * apply axpy_zero; try assumption. congruence.
      * rewrite zip_with_length; congruence.
Qed.

Lemma repeat_zero (n : nat) : all_zero (repeat 0 n) = true.
Proof. induction n as [| n IH]; simpl; [reflexivity | exact IH]. Qed.

(** Zero weights contract finite stage derivatives to a vector of zeros. *)
Lemma vector_tree_dot_zero (n : nat) (b : list float) (k : list Y) :
  all_zero b = true -> finite_stages n k = true ->
  all_zero (vector_tree_dot n b k) = true /\ length (vector_tree_dot n b k) = n.
Proof.
  intros Hb Hk. unfold vector_tree_dot.
  apply fold_axpy_zero; try assumption.
  - apply repeat_zero.
  - apply repeat_length.
Qed.

(** Adding a vector of zeros changes no component that is a number. *)
Lemma vadd_zero (y z : Y) :
  no_nan y = true -> all_zero z = true -> length z = length y ->
  veq (vadd y z) y = true.
Proof.
  revert z. induction y as [| a y IH]; intros [| b z] Hy Hz E; simpl in *; try discriminate.
  - reflexivity.
  - apply andb_true_iff in Hy as [Ha Hy]. apply andb_true_iff in Hz as [Hb Hz].
    apply andb_true_iff. split.
    + apply add_zero_eqb; [now apply negb_true_iff | assumption].
    + apply IH; try assumption. now injection E.
Qed.

(** At a zero of either sign all seven weight polynomials are zeros. *)
Lemma weights_zero (tau : float) : is_zero tau = true -> all_zero (New.weights tau) = true.
Proof.
  intros H. destruct (is_zero_cases tau H) as [-> | ->]; vm_compute; reflexivity.
Qed.

Lemma weights_same (tau : float) : Old.weights tau = New.weights tau.
Proof. reflexivity. Qed.

End ZeroWeights.

(** ** The rescaled time at the left end point *)

Section LeftEndPoint.

(** Numerically equal finite numbers have a zero difference. *)
Lemma sub_eqb_zero (x y : float) :
  (x =? y) = true -> is_finite y = true -> is_zero (x - y) = true.
Proof.
  rewrite FloatAxioms.eqb_spec, is_finite_spec, is_zero_spec, sub_spec.
  destruct (Prim2SF x) as [sx | sx | | sx mx ex];
    destruct (Prim2SF y) as [sy | sy | | sy my ey]; try discriminate;
    try (destruct sx; discriminate); try (destruct sy; discriminate).
  - intros _ _. destruct sx, sy; reflexivity.
  - unfold SFeqb, SFcompare. intros E _.
    assert (sx = sy /\ ex = ey /\ mx = my) as (-> & -> & ->).
    { destruct sx, sy; try discriminate;
        destruct (Z.compare_spec ex ey); try discriminate;
        change (Pos.compare_cont Eq mx my) with (Pos.compare mx my) in E;
        destruct (Pos.compare_spec mx my); try discriminate; auto. }
    unfold SF64sub, SFsub, shl_align.
    rewrite Z.sub_diag. reflexivity.
Qed.

(** A zero divided by one is a zero. *)
Lemma div_zero_one (z : float) : is_zero z = true -> is_zero (z / 1) = true.
Proof.
  intros H. destruct (is_zero_cases z H) as [-> | ->]; reflexivity.
Qed.

(** A zero divided by a number other than zero is a zero. *)
Lemma div_zero (z d : float) :
  is_zero z = true -> is_zero d = false -> is_nan d = false -> is_zero (z / d) = true.
Proof.
  rewrite !is_zero_spec, is_nan_spec, div_spec.
  sf_cases z; sf_cases d; reflexivity.
Qed.

(** The rescaling of the spec sends the left end point of a segment of nonzero
    width to a zero. *)
Lemma linear_rescale_left (t0 t1 : float) :
  is_finite t0 = true -> is_zero (t1 - t0) = false -> is_nan (t1 - t0) = false ->
  is_zero (New.linear_rescale t0 t0 t1) = true.
Proof.
  intros H0 Hz Hn. unfold New.linear_rescale.
  rewrite (sub_diag t0 H0). now apply div_zero.
Qed.

(** On a segment of zero width the rescaling of the spec divides zero by zero. *)
Lemma linear_rescale_zero_width : New.linear_rescale 2 2 2 = nan.
Proof. reflexivity. Qed.


(** The newer API, at a query time that rescales to a zero. *)
Lemma new_evaluate_at_zero (lr : float -> float -> float -> float)
    (self : New._Tsit5Interpolation) (t : float) :
  is_zero (lr (New.t0 self) t (New.t1 self)) = true ->
  finite_stages (length (New.y0 self)) (New.k self) = true ->
  no_nan (New.y0 self) = true ->
  veq (New.evaluate lr self t None) (New.y0 self) = true.
Proof.
  intros Htau Hk Hy. unfold New.evaluate, New.evaluate_point.
  destruct (vector_tree_dot_zero (length (New.y0 self)) _ (New.k self)
              (weights_zero _ Htau) Hk) as [Hz Hl].
  now apply vadd_zero.
Qed.

(** The older API, at a query time equal to the segment's [t0]. *)
Lemma old_evaluate_at_t0 (self : Old._Tsit5Interpolation) (t : float) :
  (t =? Old.t0 self) = true ->
  is_finite (Old.t0 self) = true ->
  finite_stages (length (Old.y0 self)) (Old.k self) = true ->
  no_nan (Old.y0 self) = true ->
  veq (Old.evaluate self t None) (Old.y0 self) = true.
Proof.
  intros Ht H0 Hk Hy. unfold Old.evaluate, Old.evaluate_point, Old._div.
  rewrite Ht, weights_same.
  assert (Htau : is_zero ((t - Old.t0 self) / 1) = true)
    by now apply div_zero_one, sub_eqb_zero.
  destruct (vector_tree_dot_zero (length (Old.y0 self)) _ (Old.k self)
              (weights_zero _ Htau) Hk) as [Hz Hl].
  now apply vadd_zero.
Qed.

(** A finite number is equal to itself. *)
Lemma eqb_refl_finite (x : float) : is_finite x = true -> (x =? x) = true.
Proof.
  rewrite is_finite_spec, FloatAxioms.eqb_spec, SFeqb_refl.
  destruct (Prim2SF x); try discriminate; reflexivity.
Qed.

End LeftEndPoint.

(** ** Weighted sums without rounding *)

Section ExactCombination.

#[local] Open Scope Q_scope.

Lemma norm1_nonneg (v : list Q) : 0 <= norm1 v.
Proof.
  induction v as [| c v IH]; cbn [norm1 fold_right]; [apply Qle_refl |].
  exact (Qplus_le_compat 0 _ 0 _ (Qabs_nonneg c) IH).
Qed.

Lemma dotQ_bound (e : Q) (u v : list Q) :
  0 <= e -> forallb (fun x => Qle_bool (Qabs x) e) u = true ->
  Qabs (dotQ u v) <= e * norm1 v.
Proof.
  intros He. unfold dotQ. revert v.
  assert (Hn : forall v, 0 <= e * norm1 v).
  { intros v. apply Qmult_le_0_compat; [assumption | apply norm1_nonneg]. }
  induction u as [| a u IH]; intros [| c v] H; cbn [zip_with fold_right]; try apply (Hn []).
  - apply (Hn (c :: v)).
  - cbn [forallb] in H. apply andb_prop in H. destruct H as [Ha Hu].
    apply Qle_bool_iff in Ha.
    cbn [norm1 fold_right]. fold (norm1 v).
    eapply Qle_trans; [apply Qabs_triangle |].
    rewrite Qmult_plus_distr_r.
    apply Qplus_le_compat; [| now apply IH].
    rewrite Qabs_Qmult. apply Qmult_le_compat_r; [assumption | apply Qabs_nonneg].
Qed.

Lemma dotQ_minus (u w v : list Q) :
  length u = length w ->
  dotQ (zip_with Qminus u w) v == dotQ u v - dotQ w v.
Proof.
  unfold dotQ. revert w v.
  induction u as [| a u IH]; intros [| b w] [| c v] H; simpl in *; try discriminate; try ring.
  injection H as H. rewrite (IH w v H). ring.
Qed.

(** Equal stages: the weighted sum is the stage times the sum of the weights. *)
Lemma dotQ_repeat (u : list Q) (v : Q) :
  dotQ u (repeat v (length u)) == v * fold_right Qplus 0 u.
Proof.
  unfold dotQ. induction u as [| a u IH]; simpl; [ring |]. rewrite IH. ring.
Qed.


End ExactCombination.

(** ** The two rescalings *)

Section Rescaling.



(** A finite number other than zero divided by itself is one. *)
Lemma div_self (d : float) : is_finite d = true -> is_zero d = false -> d / d = 1.
Proof.
  rewrite is_finite_spec, is_zero_spec. intros Hf Hz.
  apply Prim2SF_inj. rewrite div_spec.
  change (Prim2SF 1) with (S754_finite false 4503599627370496 (-52)).
  sf_cases d.
  unfold SF64div, SFdiv, SFdiv_core_binary.
  replace (Zdigits2 (Z.pos m) + e - (Zdigits2 (Z.pos m) + e))%Z with 0%Z by lia.
  rewrite Z.sub_diag.
  change (Z.min (fexp prec emax 0) 0) with (-53)%Z.
  change (0 - -53)%Z with 53%Z. cbv iota beta.
  assert (E : Z.div_eucl (Z.shiftl (Z.pos m) 53) (Z.pos m) = (9007199254740992, 0)%Z).
  { rewrite Z.shiftl_mul_pow2 by lia.
    pose proof (Z.div_eucl_eq (Z.pos m * 2 ^ 53) (Z.pos m) ltac:(lia)) as H.
    pose proof (Z.mod_pos_bound (Z.pos m * 2 ^ 53) (Z.pos m) ltac:(lia)) as B.
    unfold Z.modulo in B.
    destruct (Z.div_eucl (Z.pos m * 2 ^ 53) (Z.pos m)) as [q r].
    change (2 ^ 53)%Z with 9007199254740992%Z in *.
    assert (q = 9007199254740992%Z) by nia. subst q.
    f_equal. lia. }
  rewrite E.
  replace (new_location (Z.pos m) 0) with loc_Exact
    by (unfold new_location; destruct (Z.even (Z.pos m)); reflexivity).
  destruct s; reflexivity.
Qed.

(** The rescaling of the spec sends the right end point of a segment to 1
    whenever the width of the segment, as computed, is a finite number other
    than zero. *)
Lemma linear_rescale_right (t0 t1 : float) :
  is_finite (t1 - t0) = true -> is_zero (t1 - t0) = false ->
  New.linear_rescale t0 t1 t1 = 1.
Proof. intros Hf Hz. unfold New.linear_rescale. now apply div_self. Qed.

End Rescaling.

(** ** The tableaus *)

(** C1, as stated, fails: the solution weights of no tableau of the source sum
    to exactly 1.  Summed as Python's [sum] does, the entries of [b_sol] of
    Tsit5 (newer API), of [c_sol] of Tsit5 (older API) and of [c_sol] of Dopri5
    each give a number different from 1. *)
Lemma C1_sum_not_exactly_one :
  (sum (New.b_sol New._tsit5_tableau) =? 1) = false
  /\ (sum (Old.c_sol Old._tsit5_tableau) =? 1) = false
  /\ (sum (Old.c_sol Old._dopri5_tableau) =? 1) = false.
Proof. by_evaluation. Qed.

(** C1, amended: for every tableau of the source the solution weights sum to 1
    up to the rounding of binary64 arithmetic: the sum is 0.9999999999999998,
    which is [1 - 2^-52], within [2^-52] of 1, and close to 1 in the sense of
    NumPy's [allclose]. *)
Theorem C1_sum_b_sol_close_to_one :
  let sums := [sum (New.b_sol New._tsit5_tableau);
               sum (Old.c_sol Old._tsit5_tableau);
               sum (Old.c_sol Old._dopri5_tableau)] in
  sums = [0.9999999999999998; 0.9999999999999998; 0.9999999999999998]
  /\ forallb (fun x => abs (x - 1) <=? 0x1p-52) sums = true
  /\ forallb (fun x => allclose x 1) sums = true.
Proof. by_evaluation. Qed.

(** The rounding of the additions is not what keeps the sums from 1 and 0: the
    binary64 numbers that the tableaus store do not sum to 1, respectively 0,
    in exact arithmetic either, in whatever order they are added. *)
Lemma stored_weights_exact_sums :
  Qred (exact_sum (New.b_sol New._tsit5_tableau) - 1) = (-149 # 576460752303423488)%Q
  /\ Qred (exact_sum (Old.c_sol Old._dopri5_tableau) - 1) = (-1 # 72057594037927936)%Q
  /\ Qeq_bool (exact_sum (New.b_error New._tsit5_tableau)) 0 = false
  /\ Qeq_bool (exact_sum (Old.c_error Old._dopri5_tableau)) 0 = false.
Proof. by_evaluation. Qed.

(** C9, as stated, fails: the embedded error weights of no tableau of the source
    sum to 0, neither summed as Python's [sum] does nor in exact arithmetic,
    and with all seven stage derivatives equal to 1 and [dt = 1] the error
    estimate is not zero even before any rounding. *)
Lemma C9_sum_b_error_not_zero :
  (sum (New.b_error New._tsit5_tableau) =? 0) = false
  /\ (sum (Old.c_error Old._tsit5_tableau) =? 0) = false
  /\ (sum (Old.c_error Old._dopri5_tableau) =? 0) = false
  /\ Qeq_bool (exact_sum (New.b_error New._tsit5_tableau)) 0 = false
  /\ Qeq_bool (exact_sum (Old.c_error Old._dopri5_tableau)) 0 = false
  /\ Qeq_bool (y_error_exact (New.b_error New._tsit5_tableau) 1 (repeat 1%Q 7)) 0 = false
  /\ Qeq_bool (y_error_exact (Old.c_error Old._dopri5_tableau) 1 (repeat 1%Q 7)) 0 = false.
Proof. by_evaluation. Qed.

(** C9, amended: every entry of [b_error] ([c_error]) is the difference between
    a solution weight and the matching weight of the embedded lower-order
    method, both weight sets sum to 1 up to rounding, and the error weights sum
    to 0 up to rounding only: summed as Python's [sum] does, the sum is about
    [-1.25e-16] for Tsit5 and [1.04e-17] for Dopri5, within [2^-52] of 0.
    Consequently, for seven equal stage derivatives [v] and every [dt], the
    error estimate [dt * sum_i b_error[i] * v] is, before any rounding,
    [dt * v] times the sum of the stored weights: at most [2^-52 * |dt * v|]
    in size, and zero only when [dt * v] is zero. *)
Theorem C9_sum_b_error_close_to_zero (dt v : Q) :
  New.b_error New._tsit5_tableau
    = zip_with PrimFloat.sub (New.b_sol New._tsit5_tableau) _tsit5_lower_order
  /\ Old.c_error Old._tsit5_tableau
    = zip_with PrimFloat.sub (Old.c_sol Old._tsit5_tableau) _tsit5_lower_order
  /\ Old.c_error Old._dopri5_tableau
    = zip_with PrimFloat.sub (Old.c_sol Old._dopri5_tableau) _dopri5_lower_order
  /\ forallb (fun x => allclose x 1)
       [sum _tsit5_lower_order; sum _dopri5_lower_order] = true
  /\ [sum (New.b_error New._tsit5_tableau);
      sum (Old.c_error Old._tsit5_tableau);
      sum (Old.c_error Old._dopri5_tableau)]
     = [-1.2490009027033011e-16; -1.2490009027033011e-16; 1.0408340855860843e-17]
  /\ forallb (fun x => abs x <=? 0x1p-52)
       [sum (New.b_error New._tsit5_tableau);
        sum (Old.c_error Old._tsit5_tableau);
        sum (Old.c_error Old._dopri5_tableau)] = true
  /\ Forall (fun b_error =>
       (y_error_exact b_error dt (repeat v 7) == dt * v * exact_sum b_error
        /\ Qabs (y_error_exact b_error dt (repeat v 7)) <= (1 # 2 ^ 52) * Qabs (dt * v)
        /\ (y_error_exact b_error dt (repeat v 7) == 0 <-> dt * v == 0))%Q)
       [New.b_error New._tsit5_tableau;
        Old.c_error Old._tsit5_tableau;
        Old.c_error Old._dopri5_tableau].
Proof.
  do 6 (split; [vm_compute; reflexivity |]).
  assert (H : forall b, length b = 7%nat ->
            (y_error_exact b dt (repeat v 7) == dt * v * exact_sum b)%Q).
  { intros b Hb. unfold y_error_exact, combine_stages_exact, exact_sum.
    rewrite <- Hb, <- (length_map exact), dotQ_repeat. ring. }
  repeat apply Forall_cons; try apply Forall_nil.
  all: split; [now apply H |];
    match goal with |- context [y_error_exact ?b _ _] => rewrite (H b eq_refl) end;
    (split; [| split]).
  all: try (rewrite Qabs_Qmult, Qmult_comm;
            apply Qmult_le_compat_r; [| apply Qabs_nonneg];
            apply Qle_bool_iff; vm_compute; reflexivity).
  all: try (intros E; apply Qmult_integral in E; destruct E as [E | E];
            [exact E | exfalso; revert E; apply Qeq_bool_neq; vm_compute; reflexivity]).
  all: intros E; rewrite E; ring.
Qed.




(** ** The local interpolation *)

(** C2, as stated, fails: at the rescaled time 1 only [b4], [b6] and [b7] are
    equal to their entries of [b_sol]; [b1], [b2], [b3] and [b5] are not.  So
    on the segment from 0 to 1 with [y0 = 0] and the first stage derivative
    alone nonzero, [evaluate(t1)] is not [y0 + sum_i b_sol[i] * k[i]]. *)
Lemma C2_weights_at_one_differ :
  let k := [[1]; [0]; [0]; [0]; [0]; [0]; [0]] in
  let y1 := vadd [0] (vector_tree_dot 1 (New.b_sol New._tsit5_tableau) k) in
  map (fun wb => fst wb =? snd wb)
      (combine (New.weights 1) (New.b_sol New._tsit5_tableau))
  = [false; false; false; true; false; true; true]
  /\ New.linear_rescale 0 1 1 = 1
  /\ New.evaluate New.linear_rescale (New.__init__ 0 1 [0] y1 k) 1 None
     = [0.09646076681806515]
  /\ y1 = [0.09646076681806523]
  /\ veq (New.evaluate New.linear_rescale (New.__init__ 0 1 [0] y1 k) 1 None) y1 = false.
Proof. by_evaluation. Qed.

(** C2, amended: at the rescaled time 1 each of the seven weight polynomials,
    computed in binary64, agrees with its entry of [b_sol] within [2^-49]
    (about [1.8e-15]), and [b4], [b6] and [b7] agree exactly.  On a segment
    whose right end point [t1] rescales to 1, [evaluate(t1)] adds to [y0] the
    stage derivatives weighted by these values; and for every component, with
    stage derivatives [ks], the weighted sum taken with the polynomials at 1
    differs from the one taken with [b_sol], before the rounding of the
    additions, by at most [2^-49 * sum_i |ks_i|]. *)
Theorem C2_weights_at_one_close_to_b_sol
    (linear_rescale : float -> float -> float -> float)
    (self : New._Tsit5Interpolation) (ks : list Q) :
  linear_rescale (New.t0 self) (New.t1 self) (New.t1 self) = 1 ->
  let w := New.weights 1 in
  let b := New.b_sol New._tsit5_tableau in
  length w = 7%nat /\ length b = 7%nat
  /\ forallb (fun wb => abs (fst wb - snd wb) <=? 0x1p-49) (combine w b) = true
  /\ nth_error w 3 = nth_error b 3
  /\ nth_error w 5 = nth_error b 5
  /\ nth_error w 6 = nth_error b 6
  /\ New.evaluate linear_rescale self (New.t1 self) None
     = vadd (New.y0 self) (vector_tree_dot (length (New.y0 self)) w (New.k self))
  /\ (Qabs (combine_stages_exact w ks - combine_stages_exact b ks)
      <= (1 # 2 ^ 49) * norm1 ks)%Q.
Proof.
  intros H. cbv zeta. do 6 (split; [vm_compute; reflexivity |]). split.
  - unfold New.evaluate, New.evaluate_point. now rewrite H.
  - unfold combine_stages_exact.
    rewrite <- dotQ_minus by reflexivity.
    apply dotQ_bound; [discriminate | vm_compute; reflexivity].
Qed.

Lemma C2_weights_at_one_close_to_b_sol_witness :
  let self := New.__init__ 0.25 0.75 [1; 2] [3; 4]
                [[1; -2]; [3; 4]; [0.5; 6]; [7; 8]; [-9; 10]; [11; 12]; [13; 14]] in
  let ks := [1; -2; 3; 1 # 2; 5; -7; 4]%Q in
  let w := New.weights 1 in
  let b := New.b_sol New._tsit5_tableau in
  length w = 7%nat /\ length b = 7%nat
  /\ forallb (fun wb => abs (fst wb - snd wb) <=? 0x1p-49) (combine w b) = true
  /\ nth_error w 3 = nth_error b 3
  /\ nth_error w 5 = nth_error b 5
  /\ nth_error w 6 = nth_error b 6
  /\ New.evaluate New.linear_rescale self (New.t1 self) None
     = vadd (New.y0 self) (vector_tree_dot (length (New.y0 self)) w (New.k self))
  /\ (Qabs (combine_stages_exact w ks - combine_stages_exact b ks)
      <= (1 # 2 ^ 49) * norm1 ks)%Q.
Proof.
  exact (C2_weights_at_one_close_to_b_sol New.linear_rescale
           (New.__init__ 0.25 0.75 [1; 2] [3; 4]
              [[1; -2]; [3; 4]; [0.5; 6]; [7; 8]; [-9; 10]; [11; 12]; [13; 14]])
           [1; -2; 3; 1 # 2; 5; -7; 4]%Q eq_refl).
Defined.

(** C3, as stated, fails: with a stage derivative that is not finite the
    left end point is not reproduced, since [0.0 * inf] is a NaN; nor is a
    [y0] that holds a NaN equal to anything. *)
Lemma C3_infinite_stage_derivative :
  let k := [[infinity]; [0]; [0]; [0]; [0]; [0]; [0]] in
  let k0 := [[0]; [0]; [0]; [0]; [0]; [0]; [0]] in
  Old.evaluate (Old.mk_Tsit5Interpolation 0 1 [1] [1] k) 0 None = [nan]
  /\ veq (Old.evaluate (Old.mk_Tsit5Interpolation 0 1 [1] [1] k) 0 None) [1] = false
  /\ New.evaluate New.linear_rescale (New.__init__ 0 1 [1] [1] k) 0 None = [nan]
  /\ veq (New.evaluate New.linear_rescale (New.__init__ 0 1 [1] [1] k) 0 None) [1] = false
  /\ veq (Old.evaluate (Old.mk_Tsit5Interpolation 0 1 [nan] [1] k0) 0 None) [nan] = false
  /\ veq (Old.evaluate (Old.mk_Tsit5Interpolation infinity 1 [1] [1] k0) infinity None) [1]
     = false.
Proof. by_evaluation. Qed.

(** C3, amended: in both API generations [evaluate(t0) == y0] holds at every
    component for every [y0] without a NaN and every array [k] of finite stage
    derivatives in the shape of [y0]: the weight polynomials are all zeros at
    the rescaled time zero.  The newer API needs [linear_rescale(t0, t0, t1)]
    to be a zero, and the older API needs [t0] to be finite. *)
Theorem C3_evaluate_left_end_point
    (linear_rescale : float -> float -> float -> float)
    (new : New._Tsit5Interpolation) (old : Old._Tsit5Interpolation) :
  is_zero (linear_rescale (New.t0 new) (New.t0 new) (New.t1 new)) = true ->
  finite_stages (length (New.y0 new)) (New.k new) = true ->
  no_nan (New.y0 new) = true ->
  is_finite (Old.t0 old) = true ->
  finite_stages (length (Old.y0 old)) (Old.k old) = true ->
  no_nan (Old.y0 old) = true ->
  veq (New.evaluate linear_rescale new (New.t0 new) None) (New.y0 new) = true
  /\ veq (Old.evaluate old (Old.t0 old) None) (Old.y0 old) = true.
Proof.
  intros Htau Hk Hy H0 Hk' Hy'. split.
  - now apply new_evaluate_at_zero.
  - apply old_evaluate_at_t0; try assumption. now apply eqb_refl_finite.
Qed.

Lemma C3_evaluate_left_end_point_witness :
  let k := [[1; -2]; [3; 4]; [0.5; 6]; [7; 8]; [-9; 10]; [11; 12]; [13; 14]] in
  veq (New.evaluate New.linear_rescale (New.__init__ 0.25 0.75 [1; 2] [3; 4] k) 0.25 None)
      [1; 2] = true
  /\ veq (Old.evaluate (Old.mk_Tsit5Interpolation 0.25 0.75 [1; 2] [3; 4] k) 0.25 None)
      [1; 2] = true.
Proof.
  exact (C3_evaluate_left_end_point New.linear_rescale
           (New.__init__ 0.25 0.75 [1; 2] [3; 4]
              [[1; -2]; [3; 4]; [0.5; 6]; [7; 8]; [-9; 10]; [11; 12]; [13; 14]])
           (Old.mk_Tsit5Interpolation 0.25 0.75 [1; 2] [3; 4]
              [[1; -2]; [3; 4]; [0.5; 6]; [7; 8]; [-9; 10]; [11; 12]; [13; 14]])
           eq_refl eq_refl eq_refl eq_refl eq_refl eq_refl).
Defined.

(** C6: in both API generations the two-argument form of [evaluate] is the
    difference of the two one-argument evaluations,
    [evaluate(t_a, t_b) == evaluate(t_b) - evaluate(t_a)], for all query times
    (in particular for [t_a <= t_b] inside the segment). *)
Theorem C6_evaluate_difference_form
    (linear_rescale : float -> float -> float -> float)
    (new : New._Tsit5Interpolation) (old : Old._Tsit5Interpolation) (t_a t_b : float) :
  New.evaluate linear_rescale new t_a (Some t_b)
    = vsub (New.evaluate linear_rescale new t_b None) (New.evaluate linear_rescale new t_a None)
  /\ Old.evaluate old t_a (Some t_b)
    = vsub (Old.evaluate old t_b None) (Old.evaluate old t_a None).
Proof. split; reflexivity. Qed.




(** C8: the [y1] passed at construction takes no part in evaluation: segments
    built from the same [t0], [t1], [y0] and [k] and two different [y1] are the
    same segment in the newer API, whose constructor drops [y1], and evaluate
    alike at every query time in both API generations. *)
Theorem C8_y1_not_used
    (linear_rescale : float -> float -> float -> float)
    (t0 t1 : float) (y0 y1 y1' : Y) (k : list Y) (t : float) (t' : option float) :
  New.__init__ t0 t1 y0 y1 k = New.__init__ t0 t1 y0 y1' k
  /\ New.evaluate linear_rescale (New.__init__ t0 t1 y0 y1 k) t t'
     = New.evaluate linear_rescale (New.__init__ t0 t1 y0 y1' k) t t'
  /\ Old.evaluate (Old.mk_Tsit5Interpolation t0 t1 y0 y1 k) t t'
     = Old.evaluate (Old.mk_Tsit5Interpolation t0 t1 y0 y1' k) t t'.
Proof. repeat split. Qed.

(** C10, as stated, fails: the guard keeps the division from a zero
    denominator, but [evaluate(t0)] is not [y0] for every segment: on the
    segment of zero width from 2 to 2 with an infinite first stage derivative
    the quotient is divided by 1 and [evaluate(t0)] is a NaN, since
    [0.0 * inf] is one. *)
Lemma C10_infinite_stage_derivative :
  let k := [[infinity]; [0]; [0]; [0]; [0]; [0]; [0]] in
  let self := Old.mk_Tsit5Interpolation 2 2 [1] [1] k in
  Old._div self 2 = 1
  /\ Old.evaluate self 2 None = [nan]
  /\ veq (Old.evaluate self 2 None) [1] = false.
Proof. by_evaluation. Qed.

(** C10, amended: in the older API a query time equal to the segment's [t0]
    is divided by 1 and never by [t1 - t0], whatever the segment is, while
    every other query time [q] is divided by [t1 - t0]; so, for a finite [t0],
    the rescaled time at [t0] is a zero, and [evaluate(t0) == y0] for finite
    stage derivatives in the shape of [y0] and a [y0] without NaN, whatever
    [t1] is, also on a segment of zero width. *)
Theorem C10_old_evaluate_guarded_division
    (t0 t1 : float) (y0 y1 : Y) (k : list Y) (t q : float) :
  let self := Old.mk_Tsit5Interpolation t0 t1 y0 y1 k in
  (t =? t0) = true ->
  Old._div self t = 1
  /\ ((q =? t0) = false -> Old._div self q = t1 - t0)
  /\ (is_finite t0 = true -> is_zero ((t - t0) / Old._div self t) = true)
  /\ (is_finite t0 = true -> finite_stages (length y0) k = true -> no_nan y0 = true ->
      veq (Old.evaluate self t None) y0 = true).
Proof.
  intros self Ht. assert (Hd : Old._div self t = 1).
  { unfold Old._div, self. cbn [Old.t0]. now rewrite Ht. }
  split; [| split; [| split]].
  - exact Hd.
  - intros Hq. unfold Old._div, self. cbn [Old.t0 Old.t1]. now rewrite Hq.
  - intros H0. rewrite Hd. now apply div_zero_one, sub_eqb_zero.
  - intros H0 Hk Hy. now apply (old_evaluate_at_t0 self t).
Qed.

Lemma C10_old_evaluate_guarded_division_witness :
  let k := [[1; 2]; [3; 4]; [5; 6]; [7; 8]; [9; 10]; [11; 12]; [13; 14]] in
  let self := Old.mk_Tsit5Interpolation 2 2 [0.5; -1.5] [0.5; -1.5] k in
  Old._div self 2 = 1
  /\ Old._div self 3 = 0
  /\ is_zero ((2 - 2) / Old._div self 2) = true
  /\ veq (Old.evaluate self 2 None) [0.5; -1.5] = true.
Proof.
  destruct (C10_old_evaluate_guarded_division 2 2 [0.5; -1.5] [0.5; -1.5]
              [[1; 2]; [3; 4]; [5; 6]; [7; 8]; [9; 10]; [11; 12]; [13; 14]] 2 3 eq_refl)
    as (H1 & H2 & H3 & H4).
  exact (conj H1 (conj (H2 eq_refl) (conj (H3 eq_refl) (H4 eq_refl eq_refl eq_refl)))).
Defined.

(** ** More of the local interpolation: shapes, NaNs and increments *)

Section Interpolation.

Lemma stage_shape_of_finite (n : nat) (k : list Y) :
  finite_stages n k = true -> stage_shape n k = true.
Proof.
  unfold finite_stages, stage_shape. induction k as [| row k IH]; simpl; [reflexivity |].
  intros H. apply andb_true_iff in H as [H Hk]. apply andb_true_iff in H as [H _].
  now rewrite H, IH.
Qed.

Lemma fold_axpy_length (n : nat) (b : list float) :
  forall (k : list Y) (acc : Y),
    stage_shape n k = true -> length acc = n ->
    length (fold_left (fun acc bk => zip_with (fun a x => a + fst bk * x) acc (snd bk))
                      (combine b k) acc) = n.
Proof.
  induction b as [| b0 b IH]; intros k acc Hk Hlen; simpl; [assumption |].
  destruct k as [| row k]; simpl in *; [assumption |].
  apply andb_true_iff in Hk as [Hrow Hk]. apply Nat.eqb_eq in Hrow.
  apply IH; [assumption |]. rewrite zip_with_length; congruence.
Qed.

Lemma vector_tree_dot_length (n : nat) (b : list float) (k : list Y) :
  stage_shape n k = true -> length (vector_tree_dot n b k) = n.
Proof.
  intros Hk. unfold vector_tree_dot. apply fold_axpy_length; [assumption |].
  apply repeat_length.
Qed.

(** X1: both [evaluate] methods return a value in the shape of [y0], in the
    one-argument and in the two-argument form, when every stage derivative
    has that shape. *)
Theorem evaluate_keeps_shape
    (linear_rescale : float -> float -> float -> float)
    (new : New._Tsit5Interpolation) (old : Old._Tsit5Interpolation)
    (t : float) (t' : option float) :
  stage_shape (length (New.y0 new)) (New.k new) = true ->
  stage_shape (length (Old.y0 old)) (Old.k old) = true ->
  length (New.evaluate linear_rescale new t t') = length (New.y0 new)
  /\ length (Old.evaluate old t t') = length (Old.y0 old).
Proof.
  intros Hn Ho.
  assert (En : forall q, length (New.evaluate_point linear_rescale new q) = length (New.y0 new)).
  { intros q. unfold New.evaluate_point, vadd.
    rewrite zip_with_length; [reflexivity |]. now rewrite vector_tree_dot_length. }
  assert (Eo : forall q, length (Old.evaluate_point old q) = length (Old.y0 old)).
  { intros q. unfold Old.evaluate_point, vadd.
    rewrite zip_with_length; [reflexivity |]. now rewrite vector_tree_dot_length. }
  unfold New.evaluate, Old.evaluate, vsub.
  destruct t' as [t' |]; split; rewrite ?zip_with_length; rewrite ?En, ?Eo; reflexivity.
Qed.

Lemma evaluate_keeps_shape_witness :
  let k := [[1; 2; 3]; [4; 5; 6]; [7; 8; 9]; [1; 1; 1]; [2; 2; 2]; [3; 3; 3]; [4; 4; 4]] in
  length (New.evaluate New.linear_rescale (New.__init__ 0 1 [1; 2; 3] [0; 0; 0] k)
            0.25 (Some 0.75)) = 3%nat
  /\ length (Old.evaluate (Old.mk_Tsit5Interpolation 0 1 [1; 2; 3] [0; 0; 0] k)
            0.25 (Some 0.75)) = 3%nat.
Proof.
  exact (evaluate_keeps_shape New.linear_rescale
           (New.__init__ 0 1 [1; 2; 3] [0; 0; 0]
              [[1; 2; 3]; [4; 5; 6]; [7; 8; 9]; [1; 1; 1]; [2; 2; 2]; [3; 3; 3]; [4; 4; 4]])
           (Old.mk_Tsit5Interpolation 0 1 [1; 2; 3] [0; 0; 0]
              [[1; 2; 3]; [4; 5; 6]; [7; 8; 9]; [1; 1; 1]; [2; 2; 2]; [3; 3; 3]; [4; 4; 4]])
           0.25 (Some 0.75) eq_refl eq_refl).
Defined.

(** A finite number times a zero is a zero. *)
Lemma mul_finite_zero (b x : float) :
  is_finite b = true -> is_zero x = true -> is_zero (b * x) = true.
Proof.
  rewrite !is_zero_spec, is_finite_spec, mul_spec.
  sf_cases b; sf_cases x; reflexivity.
Qed.

Lemma axpy_rest (b : float) (acc row : Y) :
  is_finite b = true -> all_zero acc = true -> all_zero row = true ->
  length row = length acc ->
  all_zero (zip_with (fun a x => a + b * x) acc row) = true.
Proof.
  intros Hb. revert row.
  induction acc as [| a acc IH]; intros [| x row] Ha Hr E; simpl in *; try discriminate.
  - reflexivity.
  - apply andb_true_iff in Ha as [Ha Hacc]. apply andb_true_iff in Hr as [Hx Hrow].
    apply andb_true_iff. split.
    + apply add_zero_zero; [assumption | now apply mul_finite_zero].
    + apply IH; try assumption. now injection E.
Qed.

Lemma fold_axpy_rest (n : nat) (b : list float) :
  all_finite b = true ->
  forall (k : list Y) (acc : Y),
    zero_stages n k = true -> all_zero acc = true -> length acc = n ->
    let r := fold_left (fun acc bk => zip_with (fun a x => a + fst bk * x) acc (snd bk))
                       (combine b k) acc in
    all_zero r = true /\ length r = n.
Proof.
  induction b as [| b0 b IH]; intros Hb k acc Hk Hacc Hlen; simpl in *.
  - now split.
  - apply andb_true_iff in Hb as [Hb0 Hb].
    destruct k as [| row k]; simpl in *.
    + now split.
    + apply andb_true_iff in Hk as [Hrow Hk].
      apply andb_true_iff in Hrow as [Hshape Hzero].
      apply Nat.eqb_eq in Hshape.
      apply IH; try assumption.
      * apply axpy_rest; try assumption. congruence.
      * rewrite zip_with_length; congruence.
Qed.

(** Finite weights contract zero stage derivatives to a vector of zeros. *)
Lemma vector_tree_dot_rest (n : nat) (b : list float) (k : list Y) :
  all_finite b = true -> zero_stages n k = true ->
  all_zero (vector_tree_dot n b k) = true /\ length (vector_tree_dot n b k) = n.
Proof.
  intros Hb Hk. unfold vector_tree_dot.
  apply fold_axpy_rest; try assumption.
  - apply repeat_zero.
  - apply repeat_length.
Qed.

(** X2: a step at rest is interpolated by a constant.  When all stage
    derivatives are zeros, both [evaluate] methods return a value equal to
    [y0] at every query time whose seven weights are finite numbers. *)
Theorem evaluate_step_at_rest
    (linear_rescale : float -> float -> float -> float)
    (new : New._Tsit5Interpolation) (old : Old._Tsit5Interpolation) (t : float) :
  all_finite (New.weights (linear_rescale (New.t0 new) t (New.t1 new))) = true ->
  zero_stages (length (New.y0 new)) (New.k new) = true ->
  no_nan (New.y0 new) = true ->
  all_finite (Old.weights ((t - Old.t0 old) / Old._div old t)) = true ->
  zero_stages (length (Old.y0 old)) (Old.k old) = true ->
  no_nan (Old.y0 old) = true ->
  veq (New.evaluate linear_rescale new t None) (New.y0 new) = true
  /\ veq (Old.evaluate old t None) (Old.y0 old) = true.
Proof.
  intros Hw Hk Hy Hw' Hk' Hy'. split.
  - unfold New.evaluate, New.evaluate_point.
    destruct (vector_tree_dot_rest _ _ _ Hw Hk) as [Hz Hl]. now apply vadd_zero.
  - unfold Old.evaluate, Old.evaluate_point.
    destruct (vector_tree_dot_rest _ _ _ Hw' Hk') as [Hz Hl]. now apply vadd_zero.
Qed.

Lemma evaluate_step_at_rest_witness :
  let k := [[0; -0]; [0; 0]; [-0; 0]; [0; 0]; [0; 0]; [0; 0]; [0; 0]] in
  veq (New.evaluate New.linear_rescale (New.__init__ 1 3 [0.5; -7] [0.5; -7] k) 2.5 None)
      [0.5; -7] = true
  /\ veq (Old.evaluate (Old.mk_Tsit5Interpolation 1 3 [0.5; -7] [0.5; -7] k) 2.5 None)
      [0.5; -7] = true.
Proof.
  exact (evaluate_step_at_rest New.linear_rescale
           (New.__init__ 1 3 [0.5; -7] [0.5; -7]
              [[0; -0]; [0; 0]; [-0; 0]; [0; 0]; [0; 0]; [0; 0]; [0; 0]])
           (Old.mk_Tsit5Interpolation 1 3 [0.5; -7] [0.5; -7]
              [[0; -0]; [0; 0]; [-0; 0]; [0; 0]; [0; 0]; [0; 0]; [0; 0]])
           2.5 eq_refl eq_refl eq_refl eq_refl eq_refl eq_refl).
Defined.

(** A NaN is the one NaN of the primitive floats. *)
Lemma is_nan_eq (x : float) : is_nan x = true -> x = nan.
Proof.
  rewrite is_nan_spec. intros H. rewrite <- (SF2Prim_Prim2SF x).
  destruct (Prim2SF x); try discriminate. reflexivity.
Qed.

Lemma sub_nan_l (y : float) : nan - y = nan.
Proof. apply Prim2SF_inj. rewrite sub_spec. reflexivity. Qed.

Lemma div_nan_l (y : float) : nan / y = nan.
Proof. apply Prim2SF_inj. rewrite div_spec. reflexivity. Qed.

Lemma eqb_nan_l (y : float) : (nan =? y) = false.
Proof. rewrite FloatAxioms.eqb_spec. reflexivity. Qed.

(** Nothing added to a number that is not finite makes it finite. *)
Lemma add_not_finite_l (a b : float) : is_finite a = false -> is_finite (a + b) = false.
Proof.
  rewrite !is_finite_spec, add_spec.
  destruct (Prim2SF a) as [sa | sa | | sa ma ea]; try discriminate; intros _;
    destruct (Prim2SF b) as [sb | sb | | sb mb eb]; try reflexivity;
    destruct sa, sb; reflexivity.
Qed.

Lemma add_not_finite_r (a b : float) : is_finite b = false -> is_finite (a + b) = false.
Proof.
  rewrite !is_finite_spec, add_spec.
  destruct (Prim2SF b) as [sb | sb | | sb mb eb]; try discriminate; intros _;
    destruct (Prim2SF a) as [sa | sa | | sa ma ea]; try reflexivity;
    destruct sa, sb; reflexivity.
Qed.

Lemma mul_not_finite_l (w x : float) : is_finite w = false -> is_finite (w * x) = false.
Proof.
  rewrite !is_finite_spec, mul_spec.
  destruct (Prim2SF w) as [sw | sw | | sw mw ew]; try discriminate; intros _;
    destruct (Prim2SF x) as [sx | sx | | sx mx ex]; reflexivity.
Qed.

Lemma add_nan_l (a b : float) : is_nan a = true -> is_nan (a + b) = true.
Proof. intros H. rewrite (is_nan_eq a H), is_nan_spec, add_spec. reflexivity. Qed.

Lemma add_nan_r (a b : float) : is_nan b = true -> is_nan (a + b) = true.
Proof.
  intros H. rewrite (is_nan_eq b H), is_nan_spec, add_spec.
  change (Prim2SF nan) with S754_nan. destruct (Prim2SF a); reflexivity.
Qed.

Lemma mul_nan_l (w x : float) : is_nan w = true -> is_nan (w * x) = true.
Proof. intros H. rewrite (is_nan_eq w H), is_nan_spec, mul_spec. reflexivity. Qed.

(** What one weight that is a NaN, or is not finite, does to the accumulator
    of [vector_tree_dot], and what later stages cannot undo. *)
Section Poisoned.

Variable bad : float -> bool.
Hypothesis bad_add_l : forall a b, bad a = true -> bad (a + b) = true.
Hypothesis bad_add_r : forall a b, bad b = true -> bad (a + b) = true.
Hypothesis bad_mul_l : forall w x, bad w = true -> bad (w * x) = true.

Lemma axpy_bad_weight (w : float) (acc row : Y) :
  bad w = true -> forallb bad (zip_with (fun a x => a + w * x) acc row) = true.
Proof.
  intros Hw. revert row. induction acc as [| a acc IH]; intros [| x row]; simpl; try reflexivity.
  rewrite IH, bad_add_r; [reflexivity | now apply bad_mul_l].
Qed.

Lemma axpy_bad_acc (w : float) (acc row : Y) :
  forallb bad acc = true -> forallb bad (zip_with (fun a x => a + w * x) acc row) = true.
Proof.
  revert row. induction acc as [| a acc IH]; intros [| x row] H; simpl in *; try reflexivity.
  apply andb_true_iff in H as [Ha Hacc]. now rewrite IH, bad_add_l.
Qed.

Lemma fold_axpy_bad (b : list float) :
  forall (k : list Y) (acc : Y),
    forallb bad acc = true ->
    forallb bad (fold_left (fun acc bk => zip_with (fun a x => a + fst bk * x) acc (snd bk))
                           (combine b k) acc) = true.
Proof.
  induction b as [| b0 b IH]; intros k acc H; simpl; [assumption |].
  destruct k as [| row k]; simpl; [assumption |].
  apply IH. now apply axpy_bad_acc.
Qed.

Lemma vector_tree_dot_bad (n : nat) (b : list float) (row : Y) (rest : list Y) :
  bad (hd 0 b) = true -> forallb bad (vector_tree_dot n b (row :: rest)) = true.
Proof.
  destruct b as [| b0 b]; simpl.
  - intros H. unfold vector_tree_dot. simpl.
    induction n as [| n IH]; simpl; [reflexivity | now rewrite H].
  - intros H. unfold vector_tree_dot. simpl.
    apply fold_axpy_bad. now apply axpy_bad_weight.
Qed.

Lemma vadd_bad (y z : Y) : forallb bad z = true -> forallb bad (vadd y z) = true.
Proof.
  revert z. induction y as [| a y IH]; intros [| b z] H; simpl in *; try reflexivity.
  apply andb_true_iff in H as [Hb Hz]. now rewrite IH, bad_add_r.
Qed.

End Poisoned.

Lemma not_finite_add_l (a b : float) :
  negb (is_finite a) = true -> negb (is_finite (a + b)) = true.
Proof. rewrite !negb_true_iff. apply add_not_finite_l. Qed.

Lemma not_finite_add_r (a b : float) :
  negb (is_finite b) = true -> negb (is_finite (a + b)) = true.
Proof. rewrite !negb_true_iff. apply add_not_finite_r. Qed.

Lemma not_finite_mul_l (w x : float) :
  negb (is_finite w) = true -> negb (is_finite (w * x)) = true.
Proof. rewrite !negb_true_iff. apply mul_not_finite_l. Qed.

(** X3: a query time that is a NaN gives a NaN in every component, in both
    APIs (in the newer one when [linear_rescale] hands the NaN on): the
    interpolation never answers such a query with a number. *)
Theorem evaluate_nan_time
    (linear_rescale : float -> float -> float -> float)
    (t0 t1 : float) (y0 y1 row : Y) (rest : list Y) (t : float) :
  is_nan t = true ->
  is_nan (linear_rescale t0 t t1) = true ->
  all_nan (New.evaluate linear_rescale (New.__init__ t0 t1 y0 y1 (row :: rest)) t None) = true
  /\ all_nan (Old.evaluate (Old.mk_Tsit5Interpolation t0 t1 y0 y1 (row :: rest)) t None) = true.
Proof.
  intros Ht Htau. split.
  - unfold New.evaluate, New.evaluate_point, New.__init__, all_nan.
    cbn [New.t0 New.t1 New.y0 New.k].
    apply (vadd_bad is_nan add_nan_r).
    apply (vector_tree_dot_bad is_nan add_nan_l add_nan_r mul_nan_l).
    rewrite (is_nan_eq _ Htau). reflexivity.
  - unfold Old.evaluate, Old.evaluate_point, Old._div, all_nan.
    cbn [Old.t0 Old.t1 Old.y0 Old.k].
    rewrite (is_nan_eq _ Ht), eqb_nan_l, sub_nan_l, div_nan_l.
    apply (vadd_bad is_nan add_nan_r).
    apply (vector_tree_dot_bad is_nan add_nan_l add_nan_r mul_nan_l).
    reflexivity.
Qed.

Lemma evaluate_nan_time_witness :
  let k := [[1; 1]; [2; 2]; [3; 3]; [4; 4]; [5; 5]; [6; 6]; [7; 7]] in
  all_nan (New.evaluate New.linear_rescale (New.__init__ 0 1 [1; 2] [3; 4] k) nan None) = true
  /\ all_nan (Old.evaluate (Old.mk_Tsit5Interpolation 0 1 [1; 2] [3; 4] k) nan None) = true.
Proof.
  exact (evaluate_nan_time New.linear_rescale 0 1 [1; 2] [3; 4] [1; 1]
           [[2; 2]; [3; 3]; [4; 4]; [5; 5]; [6; 6]; [7; 7]] nan eq_refl eq_refl).
Defined.

(** An infinity is one of the two infinities. *)
Lemma is_infinity_spec (x : float) :
  is_infinity x = match Prim2SF x with S754_infinity _ => true | _ => false end.
Proof.
  unfold is_infinity. rewrite FloatAxioms.eqb_spec, abs_spec.
  change (Prim2SF infinity) with (S754_infinity false).
  destruct (Prim2SF x) as [s | s | | s m e]; try (destruct s; reflexivity); reflexivity.
Qed.

Lemma is_infinity_cases (x : float) :
  is_infinity x = true -> x = infinity \/ x = neg_infinity.
Proof.
  rewrite is_infinity_spec. intros H. rewrite <- (SF2Prim_Prim2SF x).
  destruct (Prim2SF x) as [s | s | | s m e]; try discriminate.
  destruct s; [right | left]; reflexivity.
Qed.

(** Numbers that compare equal have a difference that is a zero or, for two
    infinities, a NaN. *)
Lemma sub_eqb_zero_or_nan (x y : float) :
  (x =? y) = true -> is_zero (x - y) || is_nan (x - y) = true.
Proof.
  rewrite FloatAxioms.eqb_spec, is_zero_spec, is_nan_spec, sub_spec.
  destruct (Prim2SF x) as [sx | sx | | sx mx ex];
    destruct (Prim2SF y) as [sy | sy | | sy my ey]; try discriminate;
    try (destruct sx; discriminate); try (destruct sy; discriminate).
  - intros _. destruct sx, sy; reflexivity.
  - destruct sx, sy; try discriminate; reflexivity.
  - unfold SFeqb, SFcompare. intros E.
    assert (sx = sy /\ ex = ey /\ mx = my) as (-> & -> & ->).
    { destruct sx, sy; try discriminate;
        destruct (Z.compare_spec ex ey); try discriminate;
        change (Pos.compare_cont Eq mx my) with (Pos.compare mx my) in E;
        destruct (Pos.compare_spec mx my); try discriminate; auto. }
    unfold SF64sub, SFsub, shl_align.
    rewrite Z.sub_diag. reflexivity.
Qed.

(** A number other than zero divided by a zero is an infinity. *)
Lemma div_by_zero (x z : float) :
  is_zero x = false -> is_nan x = false -> is_zero z = true -> is_infinity (x / z) = true.
Proof.
  rewrite !is_zero_spec, is_nan_spec, is_infinity_spec, div_spec.
  destruct (Prim2SF z) as [sz | sz | | sz mz ez]; try discriminate.
  destruct (Prim2SF x) as [sx | sx | | sx mx ex]; try discriminate; reflexivity.
Qed.

(** At either infinity the first weight polynomial is not a finite number. *)
Lemma weights_at_infinity (tau : float) :
  is_infinity tau = true -> negb (is_finite (hd 0 (Old.weights tau))) = true.
Proof.
  intros H. destruct (is_infinity_cases tau H) as [-> | ->]; vm_compute; reflexivity.
Qed.

(** X4: the guard of the older API protects the query time [t0] only.  On a
    segment of zero width ([t1 - t0] is a zero) every query time at a nonzero
    distance from [t0] is divided by that zero: the rescaled time is an
    infinity, and no component of the value is a finite number. *)
Theorem old_evaluate_zero_width_away_from_t0
    (t0 t1 : float) (y0 y1 row : Y) (rest : list Y) (t : float) :
  let self := Old.mk_Tsit5Interpolation t0 t1 y0 y1 (row :: rest) in
  is_zero (t1 - t0) = true ->
  is_zero (t - t0) = false ->
  is_nan (t - t0) = false ->
  Old._div self t = t1 - t0
  /\ is_infinity ((t - t0) / Old._div self t) = true
  /\ none_finite (Old.evaluate self t None) = true.
Proof.
  intros self Hw Hz Hn.
  assert (Hd : Old._div self t = t1 - t0).
  { unfold Old._div, self. cbn [Old.t0 Old.t1].
    destruct (t =? t0) eqn:E; [| reflexivity].
    apply sub_eqb_zero_or_nan in E. rewrite Hz, Hn in E. discriminate. }
  assert (Hi : is_infinity ((t - t0) / Old._div self t) = true)
    by (rewrite Hd; now apply div_by_zero).
  repeat split; try assumption.
  unfold Old.evaluate, Old.evaluate_point, none_finite, self.
  cbn [Old.t0 Old.t1 Old.y0 Old.k]. fold self.
  apply (vadd_bad _ not_finite_add_r).
  apply (vector_tree_dot_bad _ not_finite_add_l not_finite_add_r not_finite_mul_l).
  now apply weights_at_infinity.
Qed.

Lemma old_evaluate_zero_width_away_from_t0_witness :
  let k := [[1; 1]; [2; 2]; [3; 3]; [4; 4]; [5; 5]; [6; 6]; [7; 7]] in
  let self := Old.mk_Tsit5Interpolation 2 2 [1; 2] [1; 2] k in
  Old._div self 3 = 2 - 2
  /\ is_infinity ((3 - 2) / Old._div self 3) = true
  /\ none_finite (Old.evaluate self 3 None) = true.
Proof.
  exact (old_evaluate_zero_width_away_from_t0 2 2 [1; 2] [1; 2] [1; 1]
           [[2; 2]; [3; 3]; [4; 4]; [5; 5]; [6; 6]; [7; 7]] 3 eq_refl eq_refl eq_refl).
Defined.

(** The difference of a vector of finite numbers with itself is a vector of
    positive zeros. *)
Lemma vsub_diag (v : Y) : all_finite v = true -> vsub v v = repeat 0 (length v).
Proof.
  induction v as [| x v IH]; simpl; [reflexivity |].
  intros H. apply andb_true_iff in H as [Hx Hv].
  unfold vsub in *. simpl. now rewrite (sub_diag x Hx), IH.
Qed.

(** X5: the increment over an empty interval is zero.  In both APIs
    [evaluate(t, t)] is a vector of zeros in the shape of [evaluate(t)],
    whenever [evaluate(t)] holds finite numbers only. *)
Theorem evaluate_empty_interval
    (linear_rescale : float -> float -> float -> float)
    (new : New._Tsit5Interpolation) (old : Old._Tsit5Interpolation) (t : float) :
  all_finite (New.evaluate linear_rescale new t None) = true ->
  all_finite (Old.evaluate old t None) = true ->
  New.evaluate linear_rescale new t (Some t)
    = repeat 0 (length (New.evaluate linear_rescale new t None))
  /\ Old.evaluate old t (Some t) = repeat 0 (length (Old.evaluate old t None)).
Proof.
  unfold New.evaluate, Old.evaluate. intros Hn Ho. split; now apply vsub_diag.
Qed.

Lemma evaluate_empty_interval_witness :
  let k := [[1; 1]; [2; 2]; [3; 3]; [4; 4]; [5; 5]; [6; 6]; [7; 7]] in
  New.evaluate New.linear_rescale (New.__init__ 0 1 [1; 2] [3; 4] k) 0.5 (Some 0.5) = [0; 0]
  /\ Old.evaluate (Old.mk_Tsit5Interpolation 0 1 [1; 2] [3; 4] k) 0.5 (Some 0.5) = [0; 0].
Proof.
  exact (evaluate_empty_interval New.linear_rescale
           (New.__init__ 0 1 [1; 2] [3; 4]
              [[1; 1]; [2; 2]; [3; 3]; [4; 4]; [5; 5]; [6; 6]; [7; 7]])
           (Old.mk_Tsit5Interpolation 0 1 [1; 2] [3; 4]
              [[1; 1]; [2; 2]; [3; 3]; [4; 4]; [5; 5]; [6; 6]; [7; 7]])
           0.5 eq_refl eq_refl).
Defined.

(** Rounding to nearest even does not look at the sign. *)
Lemma binary_round_aux_opp (s : bool) (m e : Z) (l : location) :
  SFopp (binary_round_aux prec emax s m e l) = binary_round_aux prec emax (negb s) m e l.
Proof.
  unfold binary_round_aux.
  destruct (shr_fexp prec emax m e l) as [mrs' e'].
  destruct (shr_fexp prec emax _ e' loc_Exact) as [mrs'' e''].
  destruct (shr_m mrs''); try reflexivity.
  destruct (Z.leb e'' _); reflexivity.
Qed.

Lemma binary_round_opp (s : bool) (m : positive) (e : Z) :
  SFopp (binary_round prec emax s m e) = binary_round prec emax (negb s) m e.
Proof.
  unfold binary_round. destruct (shl_align m e _) as [mz ez]. apply binary_round_aux_opp.
Qed.

(** [x - y] is equal to [-(y - x)], rounding included, unless it is a NaN. *)
Lemma sub_antisym (x y : float) :
  is_nan (x - y) = false -> (x - y =? - (y - x)) = true.
Proof.
  rewrite is_nan_spec, FloatAxioms.eqb_spec, opp_spec, !sub_spec.
  destruct (Prim2SF x) as [sx | sx | | sx mx ex];
    destruct (Prim2SF y) as [sy | sy | | sy my ey]; try discriminate.
  all: try (destruct sx, sy; try discriminate; reflexivity).
  all: try (destruct sx; reflexivity).
  all: try (destruct sy; reflexivity).
  - intros _. simpl. apply (SFeqb_refl (S754_finite (negb sy) my ey)).
  - intros _. simpl. rewrite negb_involutive. apply (SFeqb_refl (S754_finite sx mx ex)).
  - unfold SF64sub, SFsub. rewrite (Z.min_comm ey ex).
    set (ez := Z.min ex ey).
    set (X := cond_Zopp sx (Z.pos (fst (shl_align mx ex ez)))).
    set (Y := cond_Zopp sy (Z.pos (fst (shl_align my ey ez)))).
    replace (Y - X)%Z with (- (X - Y))%Z by lia.
    destruct (X - Y)%Z as [| d | d]; simpl.
    + reflexivity.
    + intros H. rewrite binary_round_opp. simpl. rewrite SFeqb_refl. now rewrite H.
    + intros H. rewrite binary_round_opp. simpl. rewrite SFeqb_refl. now rewrite H.
Qed.

Lemma vsub_antisym (u v : Y) :
  no_nan (vsub u v) = true -> veq (vsub u v) (vopp (vsub v u)) = true.
Proof.
  unfold vsub, vopp. revert v.
  induction u as [| x u IH]; intros [| y v]; simpl; try reflexivity.
  intros H. apply andb_true_iff in H as [Hx H]. apply negb_true_iff in Hx.
  now rewrite (sub_antisym x y Hx), IH.
Qed.

(** X6: swapping the two query times negates the increment.  In both APIs
    [evaluate(t_a, t_b) == -evaluate(t_b, t_a)] at every component, rounding
    included, whenever [evaluate(t_a, t_b)] holds no NaN. *)
Theorem evaluate_swapped_times
    (linear_rescale : float -> float -> float -> float)
    (new : New._Tsit5Interpolation) (old : Old._Tsit5Interpolation) (t_a t_b : float) :
  no_nan (New.evaluate linear_rescale new t_a (Some t_b)) = true ->
  no_nan (Old.evaluate old t_a (Some t_b)) = true ->
  veq (New.evaluate linear_rescale new t_a (Some t_b))
      (vopp (New.evaluate linear_rescale new t_b (Some t_a))) = true
  /\ veq (Old.evaluate old t_a (Some t_b)) (vopp (Old.evaluate old t_b (Some t_a))) = true.
Proof.
  unfold New.evaluate, Old.evaluate. intros Hn Ho. split; now apply vsub_antisym.
Qed.

Lemma evaluate_swapped_times_witness :
  let k := [[1; 1]; [2; 2]; [3; 3]; [4; 4]; [5; 5]; [6; 6]; [7; 7]] in
  let new := New.__init__ 0 1 [1; 2] [3; 4] k in
  let old := Old.mk_Tsit5Interpolation 0 1 [1; 2] [3; 4] k in
  veq (New.evaluate New.linear_rescale new 0.25 (Some 0.75))
      (vopp (New.evaluate New.linear_rescale new 0.75 (Some 0.25))) = true
  /\ veq (Old.evaluate old 0.25 (Some 0.75)) (vopp (Old.evaluate old 0.75 (Some 0.25))) = true.
Proof.
  exact (evaluate_swapped_times New.linear_rescale
           (New.__init__ 0 1 [1; 2] [3; 4]
              [[1; 1]; [2; 2]; [3; 3]; [4; 4]; [5; 5]; [6; 6]; [7; 7]])
           (Old.mk_Tsit5Interpolation 0 1 [1; 2] [3; 4]
              [[1; 1]; [2; 2]; [3; 3]; [4; 4]; [5; 5]; [6; 6]; [7; 7]])
           0.25 0.75 eq_refl eq_refl).
Defined.

End Interpolation.

(** ** Order of the methods and of their dense output *)

Section Order.

#[local] Open Scope Q_scope.

(** Case analysis on every tree whose number of nodes is bounded by [H]. *)
Ltac each_tree H :=
  repeat match goal with
  | x : rtree |- _ => destruct x; cbn [tree_order fold_right] in H
  | l : list rtree |- _ => destruct l; cbn [tree_order fold_right] in H; try (exfalso; lia)
  end.

Lemma peval_padd (p q : poly) (x : Q) : peval (padd p q) x == peval p x + peval q x.
Proof.
  revert q. induction p as [| a p IH]; intros [| b q]; simpl; try ring.
  rewrite IH. ring.
Qed.

Lemma peval_pscale (c : Q) (p : poly) (x : Q) : peval (pscale c p) x == c * peval p x.
Proof.
  induction p as [| a p IH]; simpl; [ring |]. rewrite IH. ring.
Qed.

Lemma peval_pmul (p q : poly) (x : Q) : peval (pmul p q) x == peval p x * peval q x.
Proof.
  induction p as [| a p IH]; simpl; [ring |].
  rewrite peval_padd, peval_pscale. simpl. rewrite IH. ring.
Qed.

Lemma peval_psub (p q : poly) (x : Q) : peval (psub p q) x == peval p x - peval q x.
Proof. unfold psub. rewrite peval_padd, peval_pscale. ring. Qed.

Lemma peval_denoteP (e : expr) (x : Q) : peval (denoteP e) x == denoteQ x e.
Proof.
  induction e as [c | | e1 IH1 e2 IH2 | e1 IH1 e2 IH2 | e1 IH1 e2 IH2]; simpl.
  - ring.
  - ring.
  - now rewrite peval_padd, IH1, IH2.
  - now rewrite peval_psub, IH1, IH2.
  - now rewrite peval_pmul, IH1, IH2.
Qed.

Lemma peval_pdot (es : list expr) (v : list Q) (x : Q) :
  peval (pdot (map denoteP es) v) x == dotQ (map (denoteQ x) es) v.
Proof.
  unfold pdot, dotQ. revert v.
  induction es as [| e es IH]; intros [| c v]; simpl; try reflexivity.
  rewrite peval_padd, peval_pscale, peval_denoteP, IH. ring.
Qed.

Lemma peval_monomial (c : Q) (n : nat) (x : Q) :
  peval (repeat 0 n ++ [c]) x == c * qpow x n.
Proof.
  induction n as [| n IH]; simpl; [ring |]. rewrite IH. ring.
Qed.

Lemma peval_bound (p : poly) (x : Q) : 0 <= x -> x <= 1 -> Qabs (peval p x) <= norm1 p.
Proof.
  intros H0 H1. induction p as [| c p IH]; cbn [peval norm1 fold_right].
  - apply Qle_refl.
  - eapply Qle_trans; [apply Qabs_triangle |].
    apply Qplus_le_r.
    rewrite Qabs_Qmult, (Qabs_pos x H0).
    eapply Qle_trans; [| exact IH].
    rewrite <- (Qmult_1_l (Qabs (peval p x))) at 2.
    apply Qmult_le_compat_r; [assumption | apply Qabs_nonneg].
Qed.

Lemma dense_residual_poly (a : list (list Q)) (theta : Q) (t : rtree) :
  order_residual a (dense_weights theta) theta t
  == peval (residual_poly (elementary a t) (tree_order t) (density t)) theta.
Proof.
  unfold order_residual, residual_poly, dense_weights.
  rewrite peval_psub, peval_pdot, peval_monomial.
  unfold Qdiv. ring.
Qed.

Lemma weights_expr_float (tau : float) : map (denoteF tau) weights_expr = New.weights tau.
Proof. reflexivity. Qed.

(** X7: Tsit5 has the order that [order] returns: for every rooted tree of
    at most [order] (= 5) nodes the stored [a_lower] and [b_sol] satisfy the
    order condition [sum_i b_i Phi_i(t) = 1 / gamma(t)] within [2^-46], in
    exact arithmetic on the stored binary64 numbers and for the tableaus of
    both API generations; and [order] cannot be raised: the condition of the
    tree of 6 nodes with 5 leaves is missed by more than [10^-4]. *)
Theorem tsit5_order_conditions (Terms : Type) (terms : Terms) (t : rtree) :
  (tree_order t <= New.Tsit5.order terms)%nat ->
  (tree_order t <= Old.Tsit5.order)%nat ->
  Qabs (order_residual (stage_matrix (New.a_lower New._tsit5_tableau))
          (map exact (New.b_sol New._tsit5_tableau)) 1 t) <= 1 # 2 ^ 46
  /\ Qabs (order_residual (stage_matrix (Old.beta Old._tsit5_tableau))
          (map exact (Old.c_sol Old._tsit5_tableau)) 1 t) <= 1 # 2 ^ 46
  /\ 1 # 10 ^ 4 < Qabs (order_residual (stage_matrix (New.a_lower New._tsit5_tableau))
          (map exact (New.b_sol New._tsit5_tableau)) 1 (bushy 5)).
Proof.
  intros H _. unfold New.Tsit5.order in H.
  split; [| split]; [| | vm_compute; reflexivity].
  - apply Qle_bool_iff. each_tree H. all: vm_compute; reflexivity.
  - apply Qle_bool_iff. each_tree H. all: vm_compute; reflexivity.
Qed.

Lemma tsit5_order_conditions_witness :
  Qabs (order_residual (stage_matrix (New.a_lower New._tsit5_tableau))
          (map exact (New.b_sol New._tsit5_tableau)) 1 (Node [tall 1; bushy 1])) <= 1 # 2 ^ 46
  /\ Qabs (order_residual (stage_matrix (Old.beta Old._tsit5_tableau))
          (map exact (Old.c_sol Old._tsit5_tableau)) 1 (Node [tall 1; bushy 1])) <= 1 # 2 ^ 46
  /\ 1 # 10 ^ 4 < Qabs (order_residual (stage_matrix (New.a_lower New._tsit5_tableau))
          (map exact (New.b_sol New._tsit5_tableau)) 1 (bushy 5)).
Proof.
  apply (tsit5_order_conditions unit tt (Node [tall 1; bushy 1])); vm_compute; lia.
Defined.

(** X8: Dopri5 has the order that its class states: for every rooted tree of
    at most [order] (= 5) nodes the stored [beta] and [c_sol] satisfy the order
    condition within [2^-50] in exact arithmetic on the stored binary64
    numbers, and the condition of the tree of 6 nodes with 5 leaves is missed
    by more than [10^-4]. *)
Theorem dopri5_order_conditions (t : rtree) :
  (tree_order t <= Old.Dopri5.order)%nat ->
  Qabs (order_residual (stage_matrix (Old.beta Old._dopri5_tableau))
          (map exact (Old.c_sol Old._dopri5_tableau)) 1 t) <= 1 # 2 ^ 50
  /\ 1 # 10 ^ 4 < Qabs (order_residual (stage_matrix (Old.beta Old._dopri5_tableau))
          (map exact (Old.c_sol Old._dopri5_tableau)) 1 (bushy 5)).
Proof.
  intros H. unfold Old.Dopri5.order in H.
  split; [| vm_compute; reflexivity].
  apply Qle_bool_iff. each_tree H. all: vm_compute; reflexivity.
Qed.

Lemma dopri5_order_conditions_witness :
  Qabs (order_residual (stage_matrix (Old.beta Old._dopri5_tableau))
          (map exact (Old.c_sol Old._dopri5_tableau)) 1 (Node [tall 1; tall 1])) <= 1 # 2 ^ 50
  /\ 1 # 10 ^ 4 < Qabs (order_residual (stage_matrix (Old.beta Old._dopri5_tableau))
          (map exact (Old.c_sol Old._dopri5_tableau)) 1 (bushy 5)).
Proof.
  apply (dopri5_order_conditions (Node [tall 1; tall 1])); vm_compute; lia.
Defined.

(** X9: the error weights of Tsit5 belong to an embedded method of order 4:
    for every rooted tree with fewer nodes than [order] (at most 4) the
    elementary weights are annihilated by [b_error] within [2^-46], in both
    API generations, so that the error estimate compares the solution with one
    of order 4; the tree of 5 nodes with 4 leaves is not annihilated (more
    than [10^-4] is left). *)
Theorem tsit5_error_weights_order (Terms : Type) (terms : Terms) (t : rtree) :
  (tree_order t < New.Tsit5.order terms)%nat ->
  (tree_order t < Old.Tsit5.order)%nat ->
  Qabs (dotQ (map exact (New.b_error New._tsit5_tableau))
          (elementary (stage_matrix (New.a_lower New._tsit5_tableau)) t)) <= 1 # 2 ^ 46
  /\ Qabs (dotQ (map exact (Old.c_error Old._tsit5_tableau))
          (elementary (stage_matrix (Old.beta Old._tsit5_tableau)) t)) <= 1 # 2 ^ 46
  /\ 1 # 10 ^ 4 < Qabs (dotQ (map exact (New.b_error New._tsit5_tableau))
          (elementary (stage_matrix (New.a_lower New._tsit5_tableau)) (bushy 4))).
Proof.
  intros H _. unfold New.Tsit5.order in H. apply PeanoNat.lt_n_Sm_le in H.
  split; [| split]; [| | vm_compute; reflexivity].
  - apply Qle_bool_iff. each_tree H. all: vm_compute; reflexivity.
  - apply Qle_bool_iff. each_tree H. all: vm_compute; reflexivity.
Qed.

Lemma tsit5_error_weights_order_witness :
  Qabs (dotQ (map exact (New.b_error New._tsit5_tableau))
          (elementary (stage_matrix (New.a_lower New._tsit5_tableau)) (tall 3))) <= 1 # 2 ^ 46
  /\ Qabs (dotQ (map exact (Old.c_error Old._tsit5_tableau))
          (elementary (stage_matrix (Old.beta Old._tsit5_tableau)) (tall 3))) <= 1 # 2 ^ 46
  /\ 1 # 10 ^ 4 < Qabs (dotQ (map exact (New.b_error New._tsit5_tableau))
          (elementary (stage_matrix (New.a_lower New._tsit5_tableau)) (bushy 4))).
Proof.
  apply (tsit5_error_weights_order unit tt (tall 3)); vm_compute; lia.
Defined.

(** X10: the error weights of Dopri5 belong to an embedded method of order 4:
    for every rooted tree with fewer nodes than [order] the elementary weights
    are annihilated by [c_error] within [2^-50], and the tree of 5 nodes with 4
    leaves is not annihilated. *)
Theorem dopri5_error_weights_order (t : rtree) :
  (tree_order t < Old.Dopri5.order)%nat ->
  Qabs (dotQ (map exact (Old.c_error Old._dopri5_tableau))
          (elementary (stage_matrix (Old.beta Old._dopri5_tableau)) t)) <= 1 # 2 ^ 50
  /\ 1 # 10 ^ 4 < Qabs (dotQ (map exact (Old.c_error Old._dopri5_tableau))
          (elementary (stage_matrix (Old.beta Old._dopri5_tableau)) (bushy 4))).
Proof.
  intros H. unfold Old.Dopri5.order in H. apply PeanoNat.lt_n_Sm_le in H.
  split; [| vm_compute; reflexivity].
  apply Qle_bool_iff. each_tree H. all: vm_compute; reflexivity.
Qed.

Lemma dopri5_error_weights_order_witness :
  Qabs (dotQ (map exact (Old.c_error Old._dopri5_tableau))
          (elementary (stage_matrix (Old.beta Old._dopri5_tableau)) (bushy 3))) <= 1 # 2 ^ 50
  /\ 1 # 10 ^ 4 < Qabs (dotQ (map exact (Old.c_error Old._dopri5_tableau))
          (elementary (stage_matrix (Old.beta Old._dopri5_tableau)) (bushy 4))).
Proof.
  apply (dopri5_error_weights_order (bushy 3)); vm_compute; lia.
Defined.

(** X11: the weights [c_mid] of the Dopri5 interpolation give the solution at
    the middle of the step to order 4: for every rooted tree of at most 4
    nodes they satisfy the order condition at [theta = 1/2],
    [sum_i c_mid_i Phi_i(t) = (1/2) ^ |t| / gamma(t)], within [2^-53], and the
    condition of the tree of 5 nodes with 4 leaves is missed by more than
    [10^-4]. *)
Theorem dopri5_c_mid_order (t : rtree) :
  (tree_order t <= 4)%nat ->
  Qabs (order_residual (stage_matrix (Old.beta Old._dopri5_tableau))
          (map exact Old._Dopri5Interpolation.c_mid) (1 # 2) t) <= 1 # 2 ^ 53
  /\ 1 # 10 ^ 4 < Qabs (order_residual (stage_matrix (Old.beta Old._dopri5_tableau))
          (map exact Old._Dopri5Interpolation.c_mid) (1 # 2) (bushy 4)).
Proof.
  intros H.
  split; [| vm_compute; reflexivity].
  apply Qle_bool_iff. each_tree H. all: vm_compute; reflexivity.
Qed.

Lemma dopri5_c_mid_order_witness :
  Qabs (order_residual (stage_matrix (Old.beta Old._dopri5_tableau))
          (map exact Old._Dopri5Interpolation.c_mid) (1 # 2) (Node [tall 1; tall 0])) <= 1 # 2 ^ 53
  /\ 1 # 10 ^ 4 < Qabs (order_residual (stage_matrix (Old.beta Old._dopri5_tableau))
          (map exact Old._Dopri5Interpolation.c_mid) (1 # 2) (bushy 4)).
Proof.
  apply (dopri5_c_mid_order (Node [tall 1; tall 0])); vm_compute; lia.
Defined.

(** X12: the dense output of Tsit5 is of order 4 over the whole step: at
    every fraction [theta] in [[0, 1]] and for every rooted tree of at most 4
    nodes the seven weight polynomials of [evaluate], with their stored
    coefficients and evaluated without rounding, satisfy the order condition
    [sum_i b_i(theta) Phi_i(t) = theta ^ |t| / gamma(t)] within [2^-41]; the
    polynomials are those that both [evaluate] methods compute in binary64;
    and the order is not 5: in the middle of the step the condition of the tree
    of 5 nodes with 4 leaves is missed by more than [10^-4]. *)
Theorem tsit5_dense_output_order (theta : Q) (t : rtree) :
  0 <= theta -> theta <= 1 -> (tree_order t <= 4)%nat ->
  Qabs (order_residual (stage_matrix (New.a_lower New._tsit5_tableau))
          (dense_weights theta) theta t) <= 1 # 2 ^ 41
  /\ (forall tau : float,
        map (denoteF tau) weights_expr = New.weights tau
        /\ map (denoteF tau) weights_expr = Old.weights tau)
  /\ 1 # 10 ^ 4 < Qabs (order_residual (stage_matrix (New.a_lower New._tsit5_tableau))
          (dense_weights (1 # 2)) (1 # 2) (bushy 4)).
Proof.
  intros H0 H1 H.
  split; [| split]; [| intros tau; split; reflexivity | vm_compute; reflexivity].
  rewrite dense_residual_poly.
  eapply Qle_trans; [now apply peval_bound |].
  apply Qle_bool_iff. each_tree H. all: vm_compute; reflexivity.
Qed.

Lemma tsit5_dense_output_order_witness :
  Qabs (order_residual (stage_matrix (New.a_lower New._tsit5_tableau))
          (dense_weights (1 # 3)) (1 # 3) (Node [tall 1; tall 0])) <= 1 # 2 ^ 41
  /\ (forall tau : float,
        map (denoteF tau) weights_expr = New.weights tau
        /\ map (denoteF tau) weights_expr = Old.weights tau)
  /\ 1 # 10 ^ 4 < Qabs (order_residual (stage_matrix (New.a_lower New._tsit5_tableau))
          (dense_weights (1 # 2)) (1 # 2) (bushy 4)).
Proof.
  apply (tsit5_dense_output_order (1 # 3) (Node [tall 1; tall 0])); vm_compute; try lia; discriminate.
Defined.

Lemma peval_pderiv_from_padd (k : nat) (p q : poly) (x : Q) :
  peval (pderiv_from k (padd p q)) x
  == peval (pderiv_from k p) x + peval (pderiv_from k q) x.
Proof.
  revert k q. induction p as [| a p IH]; intros k [| b q]; simpl; try ring.
  rewrite IH. ring.
Qed.

Lemma peval_pderiv_from_pscale (k : nat) (c : Q) (p : poly) (x : Q) :
  peval (pderiv_from k (pscale c p)) x == c * peval (pderiv_from k p) x.
Proof.
  revert k. induction p as [| a p IH]; intros k; simpl; [ring |].
  rewrite IH. ring.
Qed.

Lemma peval_pderiv_padd (p q : poly) (x : Q) :
  peval (pderiv (padd p q)) x == peval (pderiv p) x + peval (pderiv q) x.
Proof.
  unfold pderiv. destruct p as [| a p], q as [| b q]; simpl; try ring.
  apply peval_pderiv_from_padd.
Qed.

Lemma peval_pderiv_pscale (c : Q) (p : poly) (x : Q) :
  peval (pderiv (pscale c p)) x == c * peval (pderiv p) x.
Proof.
  unfold pderiv. destruct p as [| a p]; simpl; [ring |].
  apply peval_pderiv_from_pscale.
Qed.

Lemma peval_pderiv_pdot (ps : list poly) (v : list Q) (x : Q) :
  peval (pderiv (pdot ps v)) x == dotQ (map (fun p => peval (pderiv p) x) ps) v.
Proof.
  unfold pdot, dotQ. revert v.
  induction ps as [| p ps IH]; intros [| c v]; simpl; try reflexivity.
  rewrite peval_pderiv_padd, peval_pderiv_pscale, IH. ring.
Qed.

(** X13: the dense output of Tsit5 has the slopes of the first and of the
    last stage at the ends of the step: for stage derivatives [ks] of one component,
    the polynomial [sum_i b_i(theta) ks_i] that [evaluate] adds to [y0] has, at
    [theta = 0], the slope [ks_0] of the first stage within [2^-52] times
    [sum_i |ks_i|], and at [theta = 1] the slope [ks_6] of the last stage (the
    first stage of the next step) within [2^-46] times [sum_i |ks_i|], the
    coefficients being the stored ones and the arithmetic exact. *)
Theorem tsit5_dense_output_end_slopes (ks : list Q) :
  length ks = 7%nat ->
  Qabs (peval (pderiv (pdot (map denoteP weights_expr) ks)) 0 - nth 0 ks 0)
    <= (1 # 2 ^ 52) * norm1 ks
  /\ Qabs (peval (pderiv (pdot (map denoteP weights_expr) ks)) 1 - nth 6 ks 0)
    <= (1 # 2 ^ 46) * norm1 ks.
Proof.
  intros H.
  assert (E0 : nth 0 ks 0 == dotQ [1; 0; 0; 0; 0; 0; 0] ks).
  { do 8 (destruct ks as [| ? ks]; try discriminate). unfold dotQ. simpl. ring. }
  assert (E1 : nth 6 ks 0 == dotQ [0; 0; 0; 0; 0; 0; 1] ks).
  { do 8 (destruct ks as [| ? ks]; try discriminate). unfold dotQ. simpl. ring. }
  rewrite E0, E1, !peval_pderiv_pdot, <- !dotQ_minus by reflexivity.
  split; apply dotQ_bound; try discriminate; vm_compute; reflexivity.
Qed.

Lemma tsit5_dense_output_end_slopes_witness :
  Qabs (peval (pderiv (pdot (map denoteP weights_expr) [1; -2; 3; 1 # 2; 5; -7; 4])) 0
        - nth 0 [1; -2; 3; 1 # 2; 5; -7; 4] 0)
    <= (1 # 2 ^ 52) * norm1 [1; -2; 3; 1 # 2; 5; -7; 4]
  /\ Qabs (peval (pderiv (pdot (map denoteP weights_expr) [1; -2; 3; 1 # 2; 5; -7; 4])) 1
        - nth 6 [1; -2; 3; 1 # 2; 5; -7; 4] 0)
    <= (1 # 2 ^ 46) * norm1 [1; -2; 3; 1 # 2; 5; -7; 4].
Proof.
  apply (tsit5_dense_output_end_slopes [1; -2; 3; 1 # 2; 5; -7; 4]). reflexivity.
Defined.

(** X14: in every tableau of the source the stage times are consistent with
    the coupling matrix and lie in the step: each row of [a_lower] ([beta])
    sums to its entry of [c] ([alpha]) within [2^-50], in exact arithmetic on
    the stored numbers, and every entry of [c] lies in [[0, 1]]. *)
Theorem tableau_stage_times :
  Forall (fun tab : list (list float) * list float =>
            Forall2 (fun row ci => Qabs (exact_sum row - exact ci) <= 1 # 2 ^ 50)
                    (fst tab) (snd tab)
            /\ Forall (fun ci => 0 <= exact ci <= 1) (snd tab))
    [ (New.a_lower New._tsit5_tableau, New.c New._tsit5_tableau);
      (Old.beta Old._tsit5_tableau, Old.alpha Old._tsit5_tableau);
      (Old.beta Old._dopri5_tableau, Old.alpha Old._dopri5_tableau) ].
Proof.
  repeat (apply Forall_cons || apply Forall_nil); split;
    cbn [fst snd New.a_lower New.c New._tsit5_tableau
         Old.beta Old.alpha Old._tsit5_tableau Old._dopri5_tableau];
    repeat (apply Forall2_cons || apply Forall2_nil || apply Forall_cons || apply Forall_nil);
    try split; apply Qle_bool_iff; vm_compute; reflexivity.
Qed.

End Order.
